(** * Workflow observability core: logger, timer, metrics, health, summary

    A shallow embedding of [monitoring/logger.py], [monitoring/dashboard.py]
    and [cloud/s3_manager.py], followed by the properties of the
    specification that concern them and by further properties of the code.

    Conventions of the embedding.
    - A Python [float] is a rational ([Q], kept reduced by [Qred]). The
      division and the product of the disk check are rounded to the nearest
      double ([Py.to_double]); clock readings and durations are kept exact,
      and a tie in [round] or in the [.2f] format is broken to the even
      neighbour on the exact value.
    - A Python [dict] is an association list in insertion order.
    - Effects are explicit: a computation reads and changes a [World]
      (clock, file system, external commands), may raise, and hands records
      to the underlying [logging.Logger]; those records are collected in call
      order and routed to the handlers by [callHandlers]. *)

From stdpp Require Import gmap strings list pretty.
From Stdlib Require Import Ascii QArith Qround Qabs Qpower Lqa.

Open Scope string_scope.
Open Scope Z_scope.

Set Warnings "-register-all".

(** ** Python values *)

Module Py.

(** [int] and [float]. *)
Inductive number :=
  | NInt (z : Z)
  | NFloat (q : Q).

Definition number_value (n : number) : Q :=
  match n with
  | NInt z => inject_Z z
  | NFloat q => q
  end.

(** The JSON-serialisable values the monitoring code builds. *)
Inductive value :=
  | VNone
  | VBool (b : bool)
  | VNum (n : number)
  | VStr (s : string)
  | VDict (items : list (string * value)).

(** [d[k] = v] on an insertion-ordered dict. *)
Fixpoint dict_set (d : list (string * value)) (k : string) (v : value)
  : list (string * value) :=
  match d with
  | [] => [(k, v)]
  | (k', v') :: rest =>
      if String.eqb k' k then (k, v) :: rest else (k', v') :: dict_set rest k v
  end.

Fixpoint dict_get (d : list (string * value)) (k : string) : option value :=
  match d with
  | [] => None
  | (k', v') :: rest => if String.eqb k' k then Some v' else dict_get rest k
  end.


(** *** Rounding *)

(** The integer nearest to [q], ties to even. *)
Definition round_half_even (q : Q) : Z :=
  let n := Qnum q in
  let d := Zpos (Qden q) in
  let f := n / d in
  match Z.compare (2 * (n mod d)) d with
  | Lt => f
  | Gt => f + 1
  | Eq => if Z.even f then f else f + 1
  end.

(** [round(x, ndigits)] on a float, for [ndigits >= 0]. *)
Definition round_float (q : Q) (ndigits : nat) : Q :=
  let scale := 10 ^ Z.of_nat ndigits in
  Qred (Qmake (round_half_even (q * inject_Z scale)) (Z.to_pos scale)).

(** [round(x, ndigits)]: an [int] is returned unchanged for [ndigits >= 0]. *)
Definition round (x : number) (ndigits : nat) : number :=
  match x with
  | NInt z => NInt z
  | NFloat q => NFloat (round_float q ndigits)
  end.

(** [x > y] on numbers. *)
Definition gt (x y : number) : bool :=
  negb (Qle_bool (number_value x) (number_value y)).

(** *** Double precision *)

(** [floor (log2 |q|)], for [q <> 0]. *)
Definition binade (q : Q) : Z :=
  let e := Z.log2 (Z.abs (Qnum q)) - Z.log2 (Zpos (Qden q)) in
  if Qle_bool (2 ^ e) (Qabs q) then e else e - 1.

(** The exponent of the unit in the last place of the doubles around [q]:
    53 bits in the binade of [q], and the fixed [2 ^ -1074] of the
    subnormals below [2 ^ -1022]. *)
Definition quantum (q : Q) : Z := Z.max (binade q) (-1022) - 52.

(** The double nearest to [q], ties to the even significand. Disk sizes
    stay far from the largest double; beyond it, where CPython gives [inf]
    or raises [OverflowError], the exponent is left unbounded. *)
Definition to_double (q : Q) : Q :=
  if Qnum q =? 0 then 0%Q
  else Qred (inject_Z (round_half_even (q / 2 ^ quantum q)) * 2 ^ quantum q).

(** [a / b] on two [int]s, [b <> 0]: the quotient, correctly rounded. *)
Definition float_div (a b : Z) : Q := to_double (inject_Z a / inject_Z b).

(** [x * y] on two [float]s. *)
Definition float_mul (x y : Q) : Q := to_double (x * y).

(** *** Text *)

Fixpoint zeros (k : nat) : string :=
  match k with
  | O => ""
  | S k' => "0" ++ zeros k'
  end.

(** [%0<width>d] for a non-negative integer. *)
Definition zero_pad (width : nat) (z : Z) : string :=
  let s := pretty z in
  zeros (width - String.length s) ++ s.

(** [f"{q:.2f}"]. The sign of a negative value survives rounding to zero,
    as in CPython ([-0.00]). *)
Definition format_2f (q : Q) : string :=
  let r := Z.abs (round_half_even (q * inject_Z 100)) in
  (if Qle_bool 0 q then "" else "-")
    ++ pretty (r / 100) ++ "." ++ zero_pad 2 (r mod 100).

(** Digits of [r / d] after the decimal point, at most [fuel] of them,
    stopping when the expansion ends. *)
Fixpoint fraction_digits (fuel : nat) (r d : Z) : string :=
  match fuel with
  | O => ""
  | S fuel' =>
      if Z.eqb r 0 then ""
      else pretty (10 * r / d) ++ fraction_digits fuel' (10 * r mod d) d
  end.

(** [repr] of a float, in positional notation with at least one fractional
    digit: exact when the decimal expansion ends within 17 digits, cut there
    otherwise (CPython prints the shortest string that reads back, and moves
    to exponent notation from [1e16] and below [1e-4]). *)
Definition float_repr (q : Q) : string :=
  let q' := Qred q in
  let a := Z.abs (Qnum q') in
  let d := Zpos (Qden q') in
  let frac := fraction_digits 17 (a mod d) d in
  (if Qle_bool 0 q' then "" else "-")
    ++ pretty (a / d) ++ "." ++ (if String.eqb frac "" then "0" else frac).

(** [str(x)] of a number. *)
Definition number_str (n : number) : string :=
  match n with
  | NInt z => pretty z
  | NFloat q => float_repr q
  end.

(** [c.isspace()], which is what [str.strip()] removes. A character is a
    code point below 256: the white space there is tab to carriage return,
    the four separators, the space, NEL (U+0085) and the no-break space
    (U+00A0). *)
Definition is_space (c : ascii) : bool :=
  let n := N_of_ascii c in
  ((9 <=? n) && (n <=? 13) || (28 <=? n) && (n <=? 32)
   || (n =? 133) || (n =? 160))%N.

Fixpoint lstrip (s : string) : string :=
  match s with
  | String c rest => if is_space c then lstrip rest else s
  | EmptyString => EmptyString
  end.

Fixpoint rstrip (s : string) : string :=
  match s with
  | String c rest =>
      match rstrip rest with
      | EmptyString => if is_space c then EmptyString else String c EmptyString
      | rest' => String c rest'
      end
  | EmptyString => EmptyString
  end.

Definition strip (s : string) : string := rstrip (lstrip s).

Definition backslash : string := String (ascii_of_N 92) "".
Definition double_quote : string := String (ascii_of_N 34) "".

Definition hex_digit (n : N) : string :=
  String.substring (N.to_nat n) 1 "0123456789abcdef".

(** One character of a JSON string under [ensure_ascii]: the two-character
    escapes, and a [u00XX] escape for anything outside [' '..'~'] (a byte
    above 127 is read as a Latin-1 code point). *)
Definition json_escape_char (c : ascii) : string :=
  let n := N_of_ascii c in
  if N.eqb n 34 then backslash ++ double_quote
  else if N.eqb n 92 then backslash ++ backslash
  else if N.eqb n 10 then backslash ++ "n"
  else if N.eqb n 13 then backslash ++ "r"
  else if N.eqb n 9 then backslash ++ "t"
  else if N.eqb n 8 then backslash ++ "b"
  else if N.eqb n 12 then backslash ++ "f"
  else if (N.ltb n 32 || N.ltb 126 n)%bool
       then backslash ++ "u00" ++ hex_digit (n / 16) ++ hex_digit (n mod 16)
  else String c "".

Fixpoint json_escape (s : string) : string :=
  match s with
  | EmptyString => ""
  | String c rest => json_escape_char c ++ json_escape rest
  end.

Definition json_string (s : string) : string :=
  double_quote ++ json_escape s ++ double_quote.

Definition newline : string := String (ascii_of_N 10) "".

Fixpoint spaces (k : nat) : string :=
  match k with
  | O => ""
  | S k' => " " ++ spaces k'
  end.

Fixpoint join (sep : string) (l : list string) : string :=
  match l with
  | [] => ""
  | [x] => x
  | x :: rest => x ++ sep ++ join sep rest
  end.

(** [json.dumps(v)] ([indent = None]) and [json.dumps(v, indent=n)], at
    nesting depth [depth]. *)
Fixpoint json_dumps_at (indent : option nat) (depth : nat) (v : value) : string :=
  match v with
  | VNone => "null"
  | VBool true => "true"
  | VBool false => "false"
  | VNum n => number_str n
  | VStr s => json_string s
  | VDict [] => "{}"
  | VDict items =>
      let fix members (l : list (string * value)) : list string :=
        match l with
        | [] => []
        | (k, x) :: rest =>
            (json_string k ++ ": " ++ json_dumps_at indent (S depth) x)
              :: members rest
        end in
      match indent with
      | None => "{" ++ join ", " (members items) ++ "}"
      | Some n =>
          "{" ++ newline ++ spaces (n * S depth)
            ++ join ("," ++ newline ++ spaces (n * S depth)) (members items)
            ++ newline ++ spaces (n * depth) ++ "}"
      end
  end.

Definition json_dumps (v : value) : string := json_dumps_at None 0 v.

Definition json_dumps_indent (n : nat) (v : value) : string :=
  json_dumps_at (Some n) 0 v.

End Py.

(** ** Exceptions *)

(** The class of a raised object, as far as [except Exception] can tell:
    the three built-in classes that derive from [BaseException] directly,
    or a class below [Exception]. *)
Inductive exc_class :=
  | KeyboardInterrupt
  | SystemExit
  | GeneratorExit
  | ExceptionClass (name : string).

(** A raised exception: its class and [str(e)]. *)
Record exn := { exn_class : exc_class; exn_str : string }.

(** [isinstance(e, Exception)]. *)
Definition is_Exception (e : exn) : bool :=
  match exn_class e with
  | ExceptionClass _ => true
  | _ => false
  end.

(** ** [datetime] *)

Record datetime := {
  year : Z; month : Z; day : Z;
  hour : Z; minute : Z; second : Z; microsecond : Z
}.

Module Datetime.







(** [t.strftime("%Y-%m-%d")], the year written with four digits. *)
Definition strftime_date (t : datetime) : string :=
  Py.zero_pad 4 (year t) ++ "-" ++ Py.zero_pad 2 (month t)
    ++ "-" ++ Py.zero_pad 2 (day t).

(** [t.isoformat()]: the microseconds are left out when they are zero. *)
Definition isoformat (t : datetime) : string :=
  strftime_date t ++ "T" ++ Py.zero_pad 2 (hour t) ++ ":"
    ++ Py.zero_pad 2 (minute t) ++ ":" ++ Py.zero_pad 2 (second t)
    ++ (if microsecond t =? 0 then "" else "." ++ Py.zero_pad 6 (microsecond t)).

End Datetime.

(** ** The world outside the process *)

(** What [subprocess.run(..., check=True)] does. *)
Inductive proc_result :=
  | ProcCompleted (stdout : string)
  | ProcCalledProcessError (stderr : string)
  | ProcFileNotFoundError
  | ProcRaised (e : exn).

Record World := {
  (** number of clock readings taken so far *)
  clock_reads : nat;
  (** [time.time()] at the n-th reading *)
  wall_time : nat -> Q;
  (** [datetime.now()] at the n-th reading *)
  wall_now : nat -> datetime;
  (** [shutil.disk_usage('/')]: an [OSError], or [(total, used, free)], the
      byte counts of [statvfs] *)
  disk_usage : exn + (Z * Z * Z);
  (** [subprocess.run] on an argument vector *)
  subprocess_run : list string -> proc_result;
  (** [os.getenv] *)
  environ : gmap string string;
  (** existing directories and regular files, by path *)
  directories : gset string;
  files : gmap string string
}.

Definition path_exists (w : World) (p : string) : bool :=
  bool_decide (p ∈ directories w) || bool_decide (is_Some (files w !! p)).

(** ** Log records and computations *)

Inductive Level := DEBUG | INFO | WARNING | ERROR.

Definition levelno (l : Level) : Z :=
  match l with
  | DEBUG => 10
  | INFO => 20
  | WARNING => 30
  | ERROR => 40
  end.

(** One call [logging.getLogger(name).<level>(message)]. *)
Record LogRecord := {
  rec_name : string;
  rec_level : Level;
  rec_message : string
}.

Inductive Outcome (A : Type) :=
  | Returned (a : A)
  | Raised (e : exn).
Arguments Returned {A} a.
Arguments Raised {A} e.

(** The result of running a computation: how it ended, the world it left,
    and the records it handed to the logging module, oldest first. *)
Record Run (A : Type) := {
  outcome : Outcome A;
  world : World;
  emitted : list LogRecord
}.
Arguments outcome {A} r.
Arguments world {A} r.
Arguments emitted {A} r.

Definition M (A : Type) : Type := World -> Run A.

Definition ret {A} (a : A) : M A :=
  fun w => {| outcome := Returned a; world := w; emitted := [] |}.

Definition raise {A} (e : exn) : M A :=
  fun w => {| outcome := Raised e; world := w; emitted := [] |}.

Definition bind {A B} (m : M A) (k : A -> M B) : M B :=
  fun w =>
    match m w with
    | {| outcome := Returned a; world := w1; emitted := t1 |} =>
        match k a w1 with
        | {| outcome := o; world := w2; emitted := t2 |} =>
            {| outcome := o; world := w2; emitted := (t1 ++ t2)%list |}
        end
    | {| outcome := Raised e; world := w1; emitted := t1 |} =>
        {| outcome := Raised e; world := w1; emitted := t1 |}
    end.

Notation "'let!' x ':=' m 'in' k" := (bind m (fun x => k))
  (at level 10, x pattern, m at level 100, k at level 200).
Notation "'do!' m 'in' k" := (bind m (fun _ => k))
  (at level 10, m at level 100, k at level 200).

(** [try: m  except Exception as e: handler(e)]. An exception that is not an
    [Exception] passes through. *)
Definition try_except_Exception {A} (m : M A) (handler : exn -> M A) : M A :=
  fun w =>
    match m w with
    | {| outcome := Returned a; world := w1; emitted := t1 |} =>
        {| outcome := Returned a; world := w1; emitted := t1 |}
    | {| outcome := Raised e; world := w1; emitted := t1 |} =>
        if is_Exception e then
          match handler e w1 with
          | {| outcome := o; world := w2; emitted := t2 |} =>
              {| outcome := o; world := w2; emitted := (t1 ++ t2)%list |}
          end
        else {| outcome := Raised e; world := w1; emitted := t1 |}
    end.

Definition emit (r : LogRecord) : M unit :=
  fun w => {| outcome := Returned tt; world := w; emitted := [r] |}.

Definition get_world : M World :=
  fun w => {| outcome := Returned w; world := w; emitted := [] |}.

Definition put_world (w' : World) : M unit :=
  fun _ => {| outcome := Returned tt; world := w'; emitted := [] |}.

Definition tick (w : World) : World :=
  {| clock_reads := S (clock_reads w); wall_time := wall_time w;
     wall_now := wall_now w; disk_usage := disk_usage w;
     subprocess_run := subprocess_run w; environ := environ w;
     directories := directories w; files := files w |}.

(** [time.time()] *)
Definition time_time : M Q :=
  fun w => {| outcome := Returned (wall_time w (clock_reads w));
              world := tick w; emitted := [] |}.

(** [datetime.now()] *)
Definition datetime_now : M datetime :=
  fun w => {| outcome := Returned (wall_now w (clock_reads w));
              world := tick w; emitted := [] |}.

(** *** File system *)

Definition with_fs (w : World) (ds : gset string) (fs : gmap string string)
  : World :=
  {| clock_reads := clock_reads w; wall_time := wall_time w;
     wall_now := wall_now w; disk_usage := disk_usage w;
     subprocess_run := subprocess_run w; environ := environ w;
     directories := ds; files := fs |}.

Definition os_error (class text path : string) : exn :=
  {| exn_class := ExceptionClass class;
     exn_str := text ++ ": '" ++ path ++ "'" |}.

(** Paths are taken as [pathlib] spells them: components separated by one
    ["/"], no trailing separator. *)

(** [s] cut at its last separator: what precedes it and what follows. *)
Fixpoint split_last (s : string) : option (string * string) :=
  match s with
  | EmptyString => None
  | String c rest =>
      match split_last rest with
      | Some (pre, last) => Some (String c pre, last)
      | None => if Ascii.eqb c "/" then Some (EmptyString, rest) else None
      end
  end.

(** [Path(p).parent], when it is not the current directory or the root
    (which exist). *)
Definition parent (p : string) : option string :=
  match split_last p with
  | Some (String c pre, _) => Some (String c pre)
  | _ => None
  end.

Fixpoint ancestors_within (fuel : nat) (p : string) : list string :=
  match fuel with
  | O => []
  | S fuel' =>
      match parent p with
      | Some q => q :: ancestors_within fuel' q
      | None => []
      end
  end.

(** [Path(p).parents] up to the current directory or the root, nearest
    first. *)
Definition ancestors (p : string) : list string :=
  ancestors_within (String.length p) p.

Inductive errno := EEXIST | ENOENT | ENOTDIR.

Definition errno_error (e : errno) (p : string) : exn :=
  match e with
  | EEXIST => os_error "FileExistsError" "[Errno 17] File exists" p
  | ENOENT => os_error "FileNotFoundError" "[Errno 2] No such file or directory" p
  | ENOTDIR => os_error "NotADirectoryError" "[Errno 20] Not a directory" p
  end.

Definition is_file (fs : gmap string string) (p : string) : bool :=
  bool_decide (is_Some (fs !! p)).

(** [Path(p).is_dir()] *)
Definition is_dir (fs : gmap string string) (ds : gset string) (p : string)
  : bool :=
  bool_decide (p ∈ ds) && negb (is_file fs p).

(** What stops the kernel on its way to the last component of [p]: nothing
    when the parent is a directory, [ENOTDIR] when a regular file lies at
    the parent or above it, [ENOENT] when the parent is missing. *)
Definition lookup_parent (fs : gmap string string) (ds : gset string)
    (p : string) : option errno :=
  match parent p with
  | None => None
  | Some q =>
      if bool_decide (q ∈ ds) then None
      else if existsb (is_file fs) (q :: ancestors q) then Some ENOTDIR
      else Some ENOENT
  end.

(** [os.mkdir(p)]: the directories afterwards, or the error. Whatever
    exists at [p] has its parent, so that case is decided first. *)
Definition os_mkdir (fs : gmap string string) (ds : gset string) (p : string)
  : errno + gset string :=
  if bool_decide (p ∈ ds) || is_file fs p then inl EEXIST
  else
    match lookup_parent fs ds p with
    | Some e => inl e
    | None => inr ({[ p ]} ∪ ds)
    end.

(** [Path(p).mkdir(exist_ok=True)]: a missing parent is an error, and so is
    anything at [p] that is not a directory. *)
Definition path_mkdir (fs : gmap string string) (ds : gset string)
    (p : string) : exn + gset string :=
  match os_mkdir fs ds p with
  | inr ds' => inr ds'
  | inl ENOENT => inl (errno_error ENOENT p)
  | inl e => if is_dir fs ds p then inr ds else inl (errno_error e p)
  end.

(** [Path(p).mkdir(parents=True, exist_ok=True)], with [above] the ancestors
    of [p]: when the parent is missing it is made first, in the same way,
    and [p] is then made without [parents]. *)
Fixpoint path_mkdir_parents (fs : gmap string string) (p : string)
    (above : list string) (ds : gset string) : exn + gset string :=
  match os_mkdir fs ds p with
  | inr ds' => inr ds'
  | inl ENOENT =>
      match above with
      | [] => inl (errno_error ENOENT p)
      | q :: above' =>
          match path_mkdir_parents fs q above' ds with
          | inl e => inl e
          | inr ds1 => path_mkdir fs ds1 p
          end
      end
  | inl e => if is_dir fs ds p then inr ds else inl (errno_error e p)
  end.

Definition set_directories (made : exn + gset string) : M unit :=
  fun w =>
    match made with
    | inl e => raise e w
    | inr ds => put_world (with_fs w ds (files w)) w
    end.

(** [Path(p).mkdir(exist_ok=True)] *)
Definition mkdir_exist_ok (p : string) : M unit :=
  fun w => set_directories (path_mkdir (files w) (directories w) p) w.


(** [Path(p).exists()] *)
Definition exists_ (p : string) : M bool :=
  fun w => ret (path_exists w p) w.

(** [open(p, 'a')], as [logging.FileHandler] does on construction: the file
    is created empty when it is not there, in a directory that is. *)
Definition open_append (p : string) : M unit :=
  fun w =>
    if bool_decide (p ∈ directories w)
    then raise (os_error "IsADirectoryError" "[Errno 21] Is a directory" p) w
    else
      match lookup_parent (files w) (directories w) p with
      | Some e => raise (errno_error e p) w
      | None =>
          put_world (with_fs w (directories w)
                       (<[ p := default "" (files w !! p) ]> (files w))) w
      end.

(** [with open(p, 'w') as f: f.write(text)], in a directory that is
    there. *)
Definition write_text (p text : string) : M unit :=
  fun w =>
    if bool_decide (p ∈ directories w)
    then raise (os_error "IsADirectoryError" "[Errno 21] Is a directory" p) w
    else put_world (with_fs w (directories w) (<[ p := text ]> (files w))) w.

(** [Path(dir) / name], for a directory path without trailing separator. *)
Definition path_join (dir name : string) : string := dir ++ "/" ++ name.

(** [with open(Path(dir) / name, 'w') as f: f.write(text)] where nothing
    has created [dir] before: the directory must be there. *)
Definition write_text_in (dir name text : string) : M unit :=
  fun w =>
    if bool_decide (dir ∈ directories w)
    then write_text (path_join dir name) text w
    else if bool_decide (is_Some (files w !! dir))
    then raise (os_error "NotADirectoryError" "[Errno 20] Not a directory"
                  (path_join dir name)) w
    else raise (os_error "FileNotFoundError"
                  "[Errno 2] No such file or directory" (path_join dir name)) w.

(** *** Computations that also print *)

(** A run together with the lines it printed on standard output, oldest
    first. *)
Definition MP (A : Type) : Type := World -> Run A * list string.

Definition retP {A} (a : A) : MP A :=
  fun w => (ret a w, []).

Definition lift {A} (m : M A) : MP A :=
  fun w => (m w, []).

(** [print(line)] *)
Definition print (line : string) : MP unit :=
  fun w => (ret tt w, [line]).

Definition bindP {A B} (m : MP A) (k : A -> MP B) : MP B :=
  fun w =>
    match m w with
    | ({| outcome := Returned a; world := w1; emitted := t1 |}, p1) =>
        match k a w1 with
        | ({| outcome := o; world := w2; emitted := t2 |}, p2) =>
            ({| outcome := o; world := w2; emitted := (t1 ++ t2)%list |},
             (p1 ++ p2)%list)
        end
    | ({| outcome := Raised e; world := w1; emitted := t1 |}, p1) =>
        ({| outcome := Raised e; world := w1; emitted := t1 |}, p1)
    end.

Notation "'let!!' x ':=' m 'in' k" := (bindP m (fun x => k))
  (at level 10, x pattern, m at level 100, k at level 200).
Notation "'do!!' m 'in' k" := (bindP m (fun _ => k))
  (at level 10, m at level 100, k at level 200).

(** ** The [logging] module: loggers and handlers *)

Module Logging.

Inductive Target :=
  | Stdout
  | FileTarget (path : string).

Inductive Formatter :=
  | PercentFormatter (fmt : string)
  | JsonFormatter.

(** A handler, with the records it has written to its target so far. *)
Record Handler := {
  target : Target;
  handler_level : Level;
  formatter : Formatter;
  written : list LogRecord
}.

Record Logger := {
  logger_name : string;
  logger_level : Level;
  handlers : list Handler
}.

(** [Handler.handle] behind the level test of [Logger.callHandlers]:
    [if record.levelno >= hdlr.level: hdlr.handle(record)]. *)
Definition Handler_handle (h : Handler) (r : LogRecord) : Handler :=
  if levelno (handler_level h) <=? levelno (rec_level r)
  then {| target := target h; handler_level := handler_level h;
          formatter := formatter h; written := (written h ++ [r])%list |}
  else h.

Definition callHandlers (lg : Logger) (r : LogRecord) : Logger :=
  {| logger_name := logger_name lg; logger_level := logger_level lg;
     handlers := map (fun h => Handler_handle h r) (handlers lg) |}.

(** [Logger.isEnabledFor] *)
Definition isEnabledFor (lg : Logger) (l : Level) : bool :=
  levelno (logger_level lg) <=? levelno l.

(** What one logging call does to the logger it names. *)
Definition handle (lg : Logger) (r : LogRecord) : Logger :=
  if String.eqb (rec_name r) (logger_name lg) && isEnabledFor lg (rec_level r)
  then callHandlers lg r
  else lg.

(** The logger after a run that emitted [trace]. *)
Definition deliver (lg : Logger) (trace : list LogRecord) : Logger :=
  fold_left handle trace lg.

Definition addHandler (lg : Logger) (h : Handler) : Logger :=
  {| logger_name := logger_name lg; logger_level := logger_level lg;
     handlers := (handlers lg ++ [h])%list |}.

End Logging.

(** ** [JsonFormatter] of [monitoring/logger.py] *)

Module JsonFormatter.

(** What [logging] attaches to a record besides name, level and message:
    [datetime.fromtimestamp(record.created)] and the place of the call. *)
Record origin := {
  created : datetime;
  module : string;
  funcName : string;
  lineno : Z
}.

(** [record.levelname] *)
Definition levelname (l : Level) : string :=
  match l with
  | DEBUG => "DEBUG"
  | INFO => "INFO"
  | WARNING => "WARNING"
  | ERROR => "ERROR"
  end.

Definition format (record : LogRecord) (o : origin) : string :=
  let log_entry :=
    [ ("timestamp", Py.VStr (Datetime.isoformat (created o)));
      ("level", Py.VStr (levelname (rec_level record)));
      ("logger", Py.VStr (rec_name record));
      ("message", Py.VStr (rec_message record));
      ("module", Py.VStr (module o));
      ("function", Py.VStr (funcName o));
      ("line", Py.VNum (Py.NInt (lineno o))) ] in
  Py.json_dumps (Py.VDict log_entry).

End JsonFormatter.

(** ** [monitoring/logger.py] *)

Module WorkflowLogger.

Import Logging.

Record t := {
  name : string;
  log_dir : string;
  logger : Logger
}.

Definition _setup_console_handler (lg : Logger) : M Logger :=
  let console_handler :=
    {| target := Stdout; handler_level := INFO;
       formatter :=
         PercentFormatter "%(asctime)s - %(name)s - %(levelname)s - %(message)s";
       written := [] |} in
  ret (addHandler lg console_handler).

Definition _setup_file_handler (name log_dir : string) (lg : Logger)
  : M Logger :=
  let! now := datetime_now in
  let timestamp := Datetime.strftime_date now in
  let log_file := path_join log_dir (name ++ "-" ++ timestamp ++ ".log") in
  do! open_append log_file in
  let file_handler :=
    {| target := FileTarget log_file; handler_level := DEBUG;
       formatter :=
         PercentFormatter
           "%(asctime)s - %(levelname)s - %(funcName)s:%(lineno)d - %(message)s";
       written := [] |} in
  ret (addHandler lg file_handler).

Definition _setup_json_handler (name log_dir : string) (lg : Logger)
  : M Logger :=
  let! now := datetime_now in
  let timestamp := Datetime.strftime_date now in
  let json_file := path_join log_dir (name ++ "-" ++ timestamp ++ ".json") in
  do! open_append json_file in
  let json_handler :=
    {| target := FileTarget json_file; handler_level := INFO;
       formatter := JsonFormatter; written := [] |} in
  ret (addHandler lg json_handler).

(** [WorkflowLogger(name, log_dir)]. The logger is taken from the registry
    by name, set to [DEBUG] and stripped of its handlers before the three
    handlers are attached. *)
Definition __init__ (name log_dir : string) : M t :=
  do! mkdir_exist_ok log_dir in
  let lg := {| logger_name := name; logger_level := DEBUG; handlers := [] |} in
  let! lg := _setup_console_handler lg in
  let! lg := _setup_file_handler name log_dir lg in
  let! lg := _setup_json_handler name log_dir lg in
  ret {| name := name; log_dir := log_dir; logger := lg |}.

(** [f"{message} | Context: {json.dumps(kwargs)}"] when [kwargs] is not
    empty. *)
Definition with_context (message : string) (kwargs : list (string * Py.value))
  : string :=
  match kwargs with
  | [] => message
  | _ => message ++ " | Context: " ++ Py.json_dumps (Py.VDict kwargs)
  end.

Definition log (self : t) (l : Level) (message : string)
    (kwargs : list (string * Py.value)) : M unit :=
  emit {| rec_name := logger_name (logger self); rec_level := l;
          rec_message := with_context message kwargs |}.

Definition info (self : t) message kwargs : M unit := log self INFO message kwargs.
Definition error (self : t) message kwargs : M unit := log self ERROR message kwargs.
Definition warning (self : t) message kwargs : M unit := log self WARNING message kwargs.
Definition debug (self : t) message kwargs : M unit := log self DEBUG message kwargs.

(** [with self.timer(operation_name): body] *)
Definition timer {A} (self : t) (operation_name : string) (body : M A) : M A :=
  let! start_time := time_time in
  do! info self ("Starting: " ++ operation_name) [] in
  try_except_Exception
    (let! result := body in
     let! now := time_time in
     let duration := (now - start_time)%Q in
     do! info self ("Completed: " ++ operation_name
                      ++ " (" ++ Py.format_2f duration ++ "s)") [] in
     ret result)
    (fun e =>
     let! now := time_time in
     let duration := (now - start_time)%Q in
     do! error self ("Failed: " ++ operation_name
                       ++ " (" ++ Py.format_2f duration ++ "s) - " ++ exn_str e) [] in
     raise e).

Definition metric (self : t) (metric_name : string) (value : Py.number)
    (unit : string) (tags : list (string * Py.value)) : M Datatypes.unit :=
  let metric_data :=
    [("metric_name", Py.VStr metric_name); ("value", Py.VNum value);
     ("unit", Py.VStr unit); ("tags", Py.VDict tags)] in
  info self ("METRIC: " ++ metric_name ++ "=" ++ Py.number_str value ++ unit)
    metric_data.

End WorkflowLogger.

(** ** [cloud/s3_manager.py] *)

Module S3Manager.

Record t := {
  region : string;
  bucket_name : string
}.

Definition __init__ (bucket_name : option string) : M t :=
  let! w := get_world in
  let region := default "us-east-1" (environ w !! "AWS_DEFAULT_REGION") in
  match bucket_name with
  | Some (String c rest) =>
      ret {| region := region; bucket_name := String c rest |}
  | _ =>
      let username := default "workflow" (environ w !! "USER") in
      ret {| region := region;
             bucket_name := "ai-devops-results-" ++ username |}
  end.

(** [subprocess.run(['aws'] + command, capture_output=True, text=True,
    check=True)]: returns the captured standard output or raises. The
    commands of this module query the service or copy towards the bucket;
    a run answers and leaves the local files alone. *)
Inductive run_result :=
  | RunStdout (stdout : string)
  | RunCalledProcessError (stderr : string)
  | RunFileNotFoundError
  | RunOther (e : exn).

Definition subprocess_run_checked (args : list string) : M run_result :=
  let! w := get_world in
  ret (match subprocess_run w args with
       | ProcCompleted out => RunStdout out
       | ProcCalledProcessError err => RunCalledProcessError err
       | ProcFileNotFoundError => RunFileNotFoundError
       | ProcRaised e => RunOther e
       end).

(** Only [CalledProcessError] and [FileNotFoundError] are caught. *)
Definition run_aws_command (self : t) (command : list string)
  : M (bool * string) :=
  let! r := subprocess_run_checked ("aws" :: command) in
  match r with
  | RunStdout out => ret (true, Py.strip out)
  | RunCalledProcessError err => ret (false, Py.strip err)
  | RunFileNotFoundError => ret (false, "AWS CLI not installed")
  | RunOther e => raise e
  end.

Definition check_aws_configured (self : t) : M bool :=
  let! (success, output) := run_aws_command self ["sts"; "get-caller-identity"] in
  ret success.

Definition check_bucket_exists (self : t) : M bool :=
  let! (success, output) :=
    run_aws_command self ["s3"; "ls"; "s3://" ++ bucket_name self] in
  ret success.

Definition create_bucket_if_needed (self : t) : MP bool :=
  let!! configured := lift (check_aws_configured self) in
  if negb configured then
    do!! print "AWS credentials not configured" in
    retP false
  else
    let!! bucket_exists := lift (check_bucket_exists self) in
    if bucket_exists then
      do!! print ("Bucket " ++ bucket_name self ++ " already exists") in
      retP true
    else
      do!! print ("Creating bucket " ++ bucket_name self) in
      let!! (success, output) :=
        lift (run_aws_command self
                ["s3"; "mb"; "s3://" ++ bucket_name self;
                 "--region"; region self]) in
      do!! (if success
            then print ("Successfully created bucket " ++ bucket_name self)
            else print ("Failed to create bucket: " ++ output)) in
      retP success.

Definition upload_file (self : t) (local_path s3_key : string) : MP bool :=
  let!! found := lift (exists_ local_path) in
  if negb found then
    do!! print ("Local file does not exist: " ++ local_path) in
    retP false
  else
    do!! print ("Uploading " ++ local_path ++ " to s3://"
                  ++ bucket_name self ++ "/" ++ s3_key) in
    let!! (success, output) :=
      lift (run_aws_command self
              ["s3"; "cp"; local_path;
               "s3://" ++ bucket_name self ++ "/" ++ s3_key]) in
    do!! (if success
          then print ("Upload successful: " ++ s3_key)
          else print ("Upload failed: " ++ output)) in
    retP success.

Definition upload_directory (self : t) (local_dir s3_prefix : string)
  : MP bool :=
  let!! found := lift (exists_ local_dir) in
  if negb found then
    do!! print ("Local directory does not exist: " ++ local_dir) in
    retP false
  else
    do!! print ("Syncing " ++ local_dir ++ " to s3://"
                  ++ bucket_name self ++ "/" ++ s3_prefix) in
    let!! (success, output) :=
      lift (run_aws_command self
              ["s3"; "sync"; local_dir;
               "s3://" ++ bucket_name self ++ "/" ++ s3_prefix]) in
    do!! (if success
          then print ("Sync successful: " ++ s3_prefix)
          else print ("Sync failed: " ++ output)) in
    retP success.

(** The two [strftime] formats of [generate_workflow_key]. *)
Definition date_str (t : datetime) : string :=
  Py.zero_pad 4 (year t) ++ "/" ++ Py.zero_pad 2 (month t)
    ++ "/" ++ Py.zero_pad 2 (day t).

Definition time_str (t : datetime) : string :=
  Py.zero_pad 2 (hour t) ++ "-" ++ Py.zero_pad 2 (minute t)
    ++ "-" ++ Py.zero_pad 2 (second t).

Definition generate_workflow_key (self : t) (workflow_run : string)
  : M string :=
  let! timestamp := datetime_now in
  ret ("results/" ++ date_str timestamp ++ "/run-" ++ workflow_run
         ++ "-" ++ time_str timestamp).

(** [metadata] is [None], or the dict the caller passes; the change the
    function makes to that dict is visible in the file it writes. *)
Definition upload_workflow_results (self : t) (result_dir workflow_run : string)
    (metadata : option (list (string * Py.value))) : MP (option string) :=
  let!! s3_key := lift (generate_workflow_key self workflow_run) in
  do!! (match metadata with
        | Some (entry :: entries) =>
            let metadata :=
              Py.dict_set (entry :: entries) "s3_location"
                (Py.VStr ("s3://" ++ bucket_name self ++ "/" ++ s3_key)) in
            lift (write_text_in result_dir "s3_metadata.json"
                    (Py.json_dumps_indent 2 (Py.VDict metadata)))
        | _ => retP tt
        end) in
  let!! success := upload_directory self result_dir s3_key in
  if success then
    let s3_url := "s3://" ++ bucket_name self ++ "/" ++ s3_key in
    do!! print ("Results available at: " ++ s3_url) in
    retP (Some s3_url)
  else retP None.

End S3Manager.

(** ** [monitoring/dashboard.py] *)

Module WorkflowMonitor.

Import Py.

Record t := {
  workflow_name : string;
  logger : WorkflowLogger.t;
  s3_manager : S3Manager.t;
  start_time : datetime;
  workflow_run : value;
  commit_sha : value
}.

Definition __init__ (workflow_name : string) : M t :=
  let! logger := WorkflowLogger.__init__ workflow_name "logs" in
  let! s3_manager := S3Manager.__init__ None in
  let! start_time := datetime_now in
  ret {| workflow_name := workflow_name; logger := logger;
         s3_manager := s3_manager; start_time := start_time;
         workflow_run := VNone; commit_sha := VNone |}.


Definition thresholds : gmap string Z :=
  list_to_map [("ollama_query", 60); ("model_download", 300);
               ("test_execution", 30); ("s3_upload", 60)].

Definition monitor_operation (self : t) (operation_name : string)
    (duration : number) (success : bool) : M unit :=
  let status := if success then "success" else "failure" in
  do! WorkflowLogger.metric (logger self) (operation_name ++ "_duration")
        (round duration 2) "s" [] in
  do! WorkflowLogger.metric (logger self) (operation_name ++ "_status")
        (NInt (if success then 1 else 0)) "" [] in
  let threshold := default 120 (thresholds !! operation_name) in
  if gt duration (NInt threshold)
  then WorkflowLogger.warning (logger self)
         ("Performance threshold exceeded: " ++ operation_name)
         [("duration", VNum duration); ("threshold", VNum (NInt threshold))]
  else ret tt.

(** [shutil.disk_usage('/')] *)
Definition shutil_disk_usage : M (Z * Z * Z) :=
  fun w =>
    match disk_usage w with
    | inl e => raise e w
    | inr usage => ret usage w
    end.

(** [a / b] on two [int]s. *)
Definition true_div (a b : Z) : M Q :=
  if b =? 0
  then raise {| exn_class := ExceptionClass "ZeroDivisionError";
                exn_str := "division by zero" |}
  else ret (float_div a b).

(** [health['checks'][name] = entry] *)
Definition set_check (health : list (string * value)) (name : string)
    (entry : list (string * value)) : list (string * value) :=
  match dict_get health "checks" with
  | Some (VDict checks) =>
      dict_set health "checks" (VDict (dict_set checks name (VDict entry)))
  | _ => health
  end.

Definition health_check (self : t) : M (list (string * value)) :=
  let! now := datetime_now in
  let health :=
    [("timestamp", VStr (Datetime.isoformat now));
     ("workflow_run", workflow_run self);
     ("checks", VDict [])] in
  let! (total, used, free) := shutil_disk_usage in
  let! ratio := true_div free total in
  let free_percent := float_mul ratio (inject_Z 100) in
  let health :=
    set_check health "disk_space"
      [("status", VStr (if negb (Qle_bool free_percent (inject_Z 10))
                        then "healthy" else "warning"));
       ("free_percent", VNum (NFloat (round_float free_percent 1)))] in
  let logs_dir := "logs" in
  let! logs_exists := exists_ logs_dir in
  let! logs_exists' := exists_ logs_dir in
  let health :=
    set_check health "logs_directory"
      [("status", VStr (if logs_exists then "healthy" else "warning"));
       ("exists", VBool logs_exists')] in
  let! s3_ok := S3Manager.check_aws_configured (s3_manager self) in
  let health :=
    set_check health "aws_configured"
      [("status", VStr (if s3_ok then "healthy" else "degraded"));
       ("configured", VBool s3_ok)] in
  do! WorkflowLogger.info (logger self) "Health check completed" health in
  ret health.

Definition critical_errors : list string :=
  ["ollama_service_down"; "model_download_failed"].

Definition track_error (self : t) (error_type error_message : string)
    (context : option (list (string * value))) : M unit :=
  let error_data :=
    [("error_type", VStr error_type);
     ("error_message", VStr error_message);
     ("workflow_run", workflow_run self);
     ("context", VDict (default [] context))] in
  do! WorkflowLogger.error (logger self) ("Error: " ++ error_type) error_data in
  if existsb (String.eqb error_type) critical_errors
  then WorkflowLogger.error (logger self)
         ("CRITICAL: " ++ error_type ++ " - " ++ error_message) []
  else ret tt.


End WorkflowMonitor.

(** ** Vocabulary of the properties *)

(** A leveled call on a [WorkflowLogger]. *)
Record log_call := {
  call_level : Level;
  call_message : string;
  call_kwargs : list (string * Py.value)
}.

(** [self.debug(...)], [self.info(...)], [self.warning(...)] or
    [self.error(...)], by the level of the call. *)
Definition perform (self : WorkflowLogger.t) (c : log_call) : M unit :=
  match call_level c with
  | DEBUG => WorkflowLogger.debug self (call_message c) (call_kwargs c)
  | INFO => WorkflowLogger.info self (call_message c) (call_kwargs c)
  | WARNING => WorkflowLogger.warning self (call_message c) (call_kwargs c)
  | ERROR => WorkflowLogger.error self (call_message c) (call_kwargs c)
  end.

(** A sequence of calls, in order. *)
Fixpoint perform_all (self : WorkflowLogger.t) (cs : list log_call) : M unit :=
  match cs with
  | [] => ret tt
  | c :: rest => do! perform self c in perform_all self rest
  end.

(** The record a call stands for. *)
Definition record_of (self : WorkflowLogger.t) (c : log_call) : LogRecord :=
  {| rec_name := Logging.logger_name (WorkflowLogger.logger self);
     rec_level := call_level c;
     rec_message := WorkflowLogger.with_context (call_message c) (call_kwargs c) |}.

(** The level of [r] is at or above the minimum level of [h]. *)
Definition admits (h : Logging.Handler) (r : LogRecord) : bool :=
  levelno (Logging.handler_level h) <=? levelno (rec_level r).

(** The logger accepts [r]: it is addressed to it and passes its floor. *)
Definition accepts (lg : Logging.Logger) (r : LogRecord) : bool :=
  String.eqb (rec_name r) (Logging.logger_name lg)
  && Logging.isEnabledFor lg (rec_level r).

(** A handler after a sequence of records was offered to it. *)
Definition offer_all (h : Logging.Handler) (rs : list LogRecord)
  : Logging.Handler :=
  fold_left Logging.Handler_handle rs h.

(** The three records a timer writes. *)
Definition start_record (self : WorkflowLogger.t) (operation_name : string)
  : LogRecord :=
  {| rec_name := Logging.logger_name (WorkflowLogger.logger self);
     rec_level := INFO;
     rec_message := "Starting: " ++ operation_name |}.

Definition success_record (self : WorkflowLogger.t) (operation_name : string)
    (duration : Q) : LogRecord :=
  {| rec_name := Logging.logger_name (WorkflowLogger.logger self);
     rec_level := INFO;
     rec_message := "Completed: " ++ operation_name
                      ++ " (" ++ Py.format_2f duration ++ "s)" |}.

Definition failure_record (self : WorkflowLogger.t) (operation_name : string)
    (duration : Q) (e : exn) : LogRecord :=
  {| rec_name := Logging.logger_name (WorkflowLogger.logger self);
     rec_level := ERROR;
     rec_message := "Failed: " ++ operation_name
                      ++ " (" ++ Py.format_2f duration ++ "s) - " ++ exn_str e |}.

Definition is_start_record (r : LogRecord) : bool :=
  String.prefix "Starting: " (rec_message r).

Definition is_end_record (r : LogRecord) : bool :=
  String.prefix "Completed: " (rec_message r)
  || String.prefix "Failed: " (rec_message r).

Definition is_error_level (r : LogRecord) : bool :=
  levelno (rec_level r) =? levelno ERROR.

Definition is_warning_level (r : LogRecord) : bool :=
  levelno (rec_level r) =? levelno WARNING.

Definition is_metric_record (r : LogRecord) : bool :=
  String.prefix "METRIC: " (rec_message r).

(** ** The classifier of the specification *)

(** This module follows the words of the specification (section 4.4), not
    the code: look the operation up in the table, fall back to the default,
    and judge [durationSeconds <= threshold]. It is compared with
    [WorkflowMonitor.monitor_operation] below. *)
Module Spec.

Record classification := {
  withinBudget : bool;
  thresholdUsed : Z
}.

Definition classify (table : gmap string Z) (default_threshold : Z)
    (operationName : string) (durationSeconds : Py.number) : classification :=
  let threshold :=
    match table !! operationName with
    | Some t => t
    | None => default_threshold
    end in
  {| withinBudget :=
       Qle_bool (Py.number_value durationSeconds) (inject_Z threshold);
     thresholdUsed := threshold |}.

End Spec.

(** The reachability probe of the health check, and whether it raises. *)
Definition aws_probe (w : World) : proc_result :=
  subprocess_run w ["aws"; "sts"; "get-caller-identity"].

Definition proc_raises (r : proc_result) : bool :=
  match r with
  | ProcRaised _ => true
  | _ => false
  end.

Definition proc_succeeds (r : proc_result) : bool :=
  match r with
  | ProcCompleted _ => true
  | _ => false
  end.

(** A health snapshot with its three checks spelled out. *)
Definition snapshot (timestamp : string) (workflow_run : Py.value)
    (disk_status : string) (free_percent : Q)
    (logs_exists : bool) (s3_ok : bool) : list (string * Py.value) :=
  [ ("timestamp", Py.VStr timestamp);
    ("workflow_run", workflow_run);
    ("checks",
     Py.VDict
       [ ("disk_space",
          Py.VDict [ ("status", Py.VStr disk_status);
                     ("free_percent", Py.VNum (Py.NFloat free_percent)) ]);
         ("logs_directory",
          Py.VDict [ ("status", Py.VStr (if logs_exists then "healthy"
                                         else "warning"));
                     ("exists", Py.VBool logs_exists) ]);
         ("aws_configured",
          Py.VDict [ ("status", Py.VStr (if s3_ok then "healthy"
                                         else "degraded"));
                     ("configured", Py.VBool s3_ok) ]) ]) ].

(** ** Fixtures: a concrete world, logger and monitor *)

Definition demo_world : World :=
  {| clock_reads := 0;
     wall_time := fun n => inject_Z (Z.of_nat n);
     wall_now := fun n =>
       {| year := 2024; month := 3; day := 1; hour := 12; minute := 0;
          second := 3 + Z.of_nat n; microsecond := 0 |};
     disk_usage := inr (100, 40, 60);
     subprocess_run := fun _ => ProcFileNotFoundError;
     environ := ∅; directories := ∅; files := ∅ |}.

Definition demo_logger : WorkflowLogger.t :=
  {| WorkflowLogger.name := "wf";
     WorkflowLogger.log_dir := "logs";
     WorkflowLogger.logger :=
       {| Logging.logger_name := "wf"; Logging.logger_level := DEBUG;
          Logging.handlers :=
            [ {| Logging.target := Logging.Stdout;
                 Logging.handler_level := INFO;
                 Logging.formatter :=
                   Logging.PercentFormatter
                     "%(asctime)s - %(name)s - %(levelname)s - %(message)s";
                 Logging.written := [] |};
              {| Logging.target := Logging.FileTarget "logs/wf-2024-03-01.log";
                 Logging.handler_level := DEBUG;
                 Logging.formatter :=
                   Logging.PercentFormatter
                     "%(asctime)s - %(levelname)s - %(funcName)s:%(lineno)d - %(message)s";
                 Logging.written := [] |};
              {| Logging.target := Logging.FileTarget "logs/wf-2024-03-01.json";
                 Logging.handler_level := INFO;
                 Logging.formatter := Logging.JsonFormatter;
                 Logging.written := [] |} ] |} |}.

Definition demo_calls : list log_call :=
  [ {| call_level := DEBUG; call_message := "probing"; call_kwargs := [] |};
    {| call_level := INFO; call_message := "started";
       call_kwargs := [("run", Py.VStr "999")] |};
    {| call_level := ERROR; call_message := "broken"; call_kwargs := [] |};
    {| call_level := WARNING; call_message := "slow"; call_kwargs := [] |} ].

Definition keyboard_interrupt : exn :=
  {| exn_class := KeyboardInterrupt; exn_str := "" |}.

Definition system_exit : exn :=
  {| exn_class := SystemExit; exn_str := "1" |}.

Definition value_error : exn :=
  {| exn_class := ExceptionClass "ValueError"; exn_str := "bad model name" |}.

Definition demo_monitor : WorkflowMonitor.t :=
  {| WorkflowMonitor.workflow_name := "wf";
     WorkflowMonitor.logger := demo_logger;
     WorkflowMonitor.s3_manager :=
       {| S3Manager.region := "us-east-1";
          S3Manager.bucket_name := "ai-devops-results-workflow" |};
     WorkflowMonitor.start_time :=
       {| year := 2024; month := 3; day := 1; hour := 12; minute := 0;
          second := 0; microsecond := 0 |};
     WorkflowMonitor.workflow_run := Py.VStr "999";
     WorkflowMonitor.commit_sha := Py.VStr "abc123" |}.

Definition disk_error : exn :=
  {| exn_class := ExceptionClass "OSError";
     exn_str := "[Errno 5] Input/output error: '/'" |}.

Definition permission_error : exn :=
  {| exn_class := ExceptionClass "PermissionError";
     exn_str := "[Errno 13] Permission denied: 'aws'" |}.

(** [demo_world] with a failing disk query. *)
Definition broken_disk_world : World :=
  {| clock_reads := 0; wall_time := wall_time demo_world;
     wall_now := wall_now demo_world;
     disk_usage := inl disk_error;
     subprocess_run := subprocess_run demo_world;
     environ := ∅; directories := ∅; files := ∅ |}.

(** [demo_world] with an [aws] file that may not be executed. *)
Definition unrunnable_aws_world : World :=
  {| clock_reads := 0; wall_time := wall_time demo_world;
     wall_now := wall_now demo_world;
     disk_usage := disk_usage demo_world;
     subprocess_run := fun _ => ProcRaised permission_error;
     environ := ∅; directories := ∅; files := ∅ |}.


(** [demo_world] with a regular file called [logs] and no directory. *)
Definition logs_file_world : World :=
  {| clock_reads := 0; wall_time := wall_time demo_world;
     wall_now := wall_now demo_world;
     disk_usage := disk_usage demo_world;
     subprocess_run := subprocess_run demo_world;
     environ := ∅; directories := ∅;
     files := {[ "logs" := "notes" ]} |}.

(** [demo_world] with a disk of [10 ^ 17] bytes of which [10 ^ 16 + 1] are
    free. *)
Definition tight_disk_world : World :=
  {| clock_reads := 0; wall_time := wall_time demo_world;
     wall_now := wall_now demo_world;
     disk_usage := inr (10 ^ 17, 9 * 10 ^ 16 - 1, 10 ^ 16 + 1);
     subprocess_run := subprocess_run demo_world;
     environ := ∅; directories := ∅; files := ∅ |}.


(** ** Vocabulary of the further properties *)

(** A character between the space and the tilde. *)
Definition printable_char (c : ascii) : bool :=
  let n := N_of_ascii c in
  ((32 <=? n) && (n <=? 126))%N.

Fixpoint printable (s : string) : bool :=
  match s with
  | EmptyString => true
  | String c rest => printable_char c && printable rest
  end.

Definition is_debug_level (r : LogRecord) : bool :=
  levelno (rec_level r) =? levelno DEBUG.

(** The names of the two log files of a logger constructed in [w]: each
    carries the date of its own clock reading. *)
Definition log_file (name log_dir : string) (w : World) : string :=
  path_join log_dir
    (name ++ "-" ++ Datetime.strftime_date (wall_now w (clock_reads w))
       ++ ".log").

Definition json_file (name log_dir : string) (w : World) : string :=
  path_join log_dir
    (name ++ "-" ++ Datetime.strftime_date (wall_now w (S (clock_reads w)))
       ++ ".json").

(** [demo_world] with a regular file called [logs] and one called
    [test-results]. *)
Definition cluttered_world : World :=
  {| clock_reads := 0; wall_time := wall_time demo_world;
     wall_now := wall_now demo_world;
     disk_usage := disk_usage demo_world;
     subprocess_run := subprocess_run demo_world;
     environ := ∅; directories := ∅;
     files := {[ "logs" := "notes"; "test-results" := "old" ]} |}.


(** The monitor that [WorkflowMonitor("wf")] builds in [demo_world]. *)
Definition fresh_monitor : WorkflowMonitor.t :=
  {| WorkflowMonitor.workflow_name := "wf";
     WorkflowMonitor.logger := demo_logger;
     WorkflowMonitor.s3_manager :=
       {| S3Manager.region := "us-east-1";
          S3Manager.bucket_name := "ai-devops-results-workflow" |};
     WorkflowMonitor.start_time :=
       {| year := 2024; month := 3; day := 1; hour := 12; minute := 0;
          second := 5; microsecond := 0 |};
     WorkflowMonitor.workflow_run := Py.VNone;
     WorkflowMonitor.commit_sha := Py.VNone |}.





(** White space only. *)
Fixpoint all_space (s : string) : bool :=
  match s with
  | EmptyString => true
  | String c rest => Py.is_space c && all_space rest
  end.

Definition starts_with_space (s : string) : bool :=
  match s with
  | EmptyString => false
  | String c _ => Py.is_space c
  end.

Fixpoint ends_with_space (s : string) : bool :=
  match s with
  | EmptyString => false
  | String c EmptyString => Py.is_space c
  | String _ rest => ends_with_space rest
  end.

(** [output] is [text] without the white space at its two ends. *)
Definition trimmed (text output : string) : Prop :=
  starts_with_space output = false
  /\ ends_with_space output = false
  /\ exists leading trailing,
       text = leading ++ output ++ trailing
       /\ all_space leading = true /\ all_space trailing = true.

(** The answers of the [aws] command that the bucket operations consult. *)
Definition aws (w : World) (command : list string) : proc_result :=
  subprocess_run w ("aws" :: command).

Definition demo_s3 : S3Manager.t :=
  {| S3Manager.region := "us-east-1";
     S3Manager.bucket_name := "ai-devops-results-workflow" |}.

(** A world with credentials in which the bucket is missing and can be
    created, uploads work, and the directory [test-results] exists. *)
Definition cloud_world : World :=
  {| clock_reads := 0; wall_time := wall_time demo_world;
     wall_now := wall_now demo_world;
     disk_usage := disk_usage demo_world;
     subprocess_run := fun args =>
       match args with
       | [_; "s3"; "ls"; _] =>
           ProcCalledProcessError "NoSuchBucket"
       | _ => ProcCompleted "ok"
       end;
     environ := ∅;
     directories := {[ "test-results" ]};
     files := ∅ |}.

(** The key [generate_workflow_key] returns in [w]: date, run and time of
    day of the next clock reading. *)
Definition workflow_key (workflow_run : string) (w : World) : string :=
  let timestamp := wall_now w (clock_reads w) in
  "results/" ++ S3Manager.date_str timestamp ++ "/run-" ++ workflow_run
    ++ "-" ++ S3Manager.time_str timestamp.

(** * Properties *)

(** ** Rounding *)

Section Rounding.

Lemma round_half_even_bounds (n : Z) (d : positive) :
  let r := Py.round_half_even (n # d) in
  2 * n - Zpos d <= 2 * r * Zpos d <= 2 * n + Zpos d.
Proof.
  unfold Py.round_half_even. cbn [Qnum Qden].
  pose proof (Z.div_mod n (Zpos d) ltac:(lia)) as Hdm.
  pose proof (Z.mod_pos_bound n (Zpos d) ltac:(lia)) as Hm.
  destruct (Z.compare_spec (2 * (n mod Zpos d)) (Zpos d)) as [He|Hl|Hg];
    [destruct (Z.even (n / Zpos d))| |]; nia.
Qed.

(** The rounded integer is within one half of the argument. *)
Lemma round_half_even_close (q : Q) :
  (q - (1 # 2) <= inject_Z (Py.round_half_even q) <= q + (1 # 2))%Q.
Proof.
  destruct q as [n d]. pose proof (round_half_even_bounds n d) as H.
  cbv zeta in H. unfold Qle, Qminus, Qplus, Qopp, inject_Z. cbn [Qnum Qden].
  split; nia.
Qed.

Lemma round_half_even_nonneg (q : Q) :
  (0 <= q)%Q -> 0 <= Py.round_half_even q.
Proof.
  destruct q as [n d]. unfold Qle. cbn [Qnum Qden]. intros Hn.
  assert (0 <= n) as Hn' by lia.
  unfold Py.round_half_even. cbn [Qnum Qden].
  pose proof (Z.div_pos n (Zpos d) Hn' ltac:(lia)) as Hf.
  destruct (Z.compare _ _); [destruct (Z.even _)| |]; lia.
Qed.

(** [round(x, 2)] of a float lies within half a hundredth of [x]. *)
Lemma round_float_2_close (q : Q) :
  (q - (1 # 200) <= Py.round_float q 2 <= q + (1 # 200))%Q.
Proof.
  unfold Py.round_float. rewrite Qred_correct.
  change (10 ^ Z.of_nat 2) with 100. change (Z.to_pos 100) with 100%positive.
  pose proof (round_half_even_close (q * inject_Z 100)) as [Hlo Hhi].
  set (r := Py.round_half_even (q * inject_Z 100)) in *.
  destruct q as [n d].
  unfold Qle, Qminus, Qplus, Qopp, Qmult, inject_Z in *. cbn [Qnum Qden] in *.
  split; nia.
Qed.


End Rounding.

(** ** Routing of records to the sinks *)

Section Routing.

Import Logging.

Lemma Handler_handle_level (h : Handler) (r : LogRecord) :
  handler_level (Handler_handle h r) = handler_level h.
Proof. unfold Handler_handle. destruct (_ <=? _); reflexivity. Qed.

Lemma Handler_handle_written (h : Handler) (r : LogRecord) :
  written (Handler_handle h r)
  = (written h ++ (if admits h r then [r] else []))%list.
Proof.
  unfold Handler_handle, admits.
  destruct (_ <=? _); cbn; [reflexivity | now rewrite app_nil_r].
Qed.

Lemma offer_all_level (rs : list LogRecord) (h : Handler) :
  handler_level (offer_all h rs) = handler_level h.
Proof.
  revert h. induction rs as [|r rs IH]; intros h; cbn; [reflexivity|].
  unfold offer_all in IH. now rewrite IH, Handler_handle_level.
Qed.

Lemma offer_all_target (rs : list LogRecord) (h : Handler) :
  target (offer_all h rs) = target h
  /\ formatter (offer_all h rs) = formatter h.
Proof.
  revert h. induction rs as [|r rs IH]; intros h; [split; reflexivity|].
  change (offer_all h (r :: rs)) with (offer_all (Handler_handle h r) rs).
  destruct (IH (Handler_handle h r)) as [-> ->].
  unfold Handler_handle. destruct (_ <=? _); split; reflexivity.
Qed.

Lemma admits_ext (h h' : Handler) (r : LogRecord) :
  handler_level h = handler_level h' -> admits h r = admits h' r.
Proof. unfold admits. now intros ->. Qed.

(** A handler keeps what it had and appends, in order, the offered records
    it admits. *)
Lemma offer_all_written (rs : list LogRecord) (h : Handler) :
  written (offer_all h rs) = (written h ++ List.filter (admits h) rs)%list.
Proof.
  revert h. induction rs as [|r rs IH]; intros h.
  - cbn. now rewrite app_nil_r.
  - change (offer_all h (r :: rs)) with (offer_all (Handler_handle h r) rs).
    rewrite IH, Handler_handle_written.
    rewrite (List.filter_ext (admits (Handler_handle h r)) (admits h)) by
      (intros x; apply admits_ext, Handler_handle_level).
    cbn [List.filter]. destruct (admits h r); cbn; now rewrite <- app_assoc.
Qed.

Lemma handle_handlers (lg : Logger) (r : LogRecord) :
  handlers (handle lg r)
  = map (fun h => offer_all h (List.filter (accepts lg) [r])) (handlers lg).
Proof.
  unfold handle. cbn [List.filter]. fold (accepts lg r).
  destruct (accepts lg r); cbn.
  - reflexivity.
  - now rewrite map_id.
Qed.

Lemma handle_name_level (lg : Logger) (r : LogRecord) :
  logger_name (handle lg r) = logger_name lg
  /\ logger_level (handle lg r) = logger_level lg.
Proof. unfold handle. destruct (_ && _); split; reflexivity. Qed.

Lemma accepts_handle (lg : Logger) (r x : LogRecord) :
  accepts (handle lg r) x = accepts lg x.
Proof.
  unfold accepts, isEnabledFor.
  destruct (handle_name_level lg r) as [-> ->]. reflexivity.
Qed.

(** Every handler of the logger is offered the accepted records of the
    trace, in order. *)
Lemma deliver_handlers (trace : list LogRecord) (lg : Logger) :
  handlers (deliver lg trace)
  = map (fun h => offer_all h (List.filter (accepts lg) trace)) (handlers lg).
Proof.
  revert lg. induction trace as [|r trace IH]; intros lg.
  - cbn. now rewrite map_id.
  - change (deliver lg (r :: trace)) with (deliver (handle lg r) trace).
    rewrite IH, handle_handlers, map_map.
    apply map_ext. intros h.
    rewrite (List.filter_ext (accepts (handle lg r)) (accepts lg)) by
      (intros x; apply accepts_handle).
    cbn [List.filter]. destruct (accepts lg r); reflexivity.
Qed.

Lemma emitted_perform_all (self : WorkflowLogger.t) (cs : list log_call)
    (w : World) :
  emitted (perform_all self cs w) = map (record_of self) cs
  /\ outcome (perform_all self cs w) = Returned tt.
Proof.
  revert w. induction cs as [|c cs IH]; intros w; [split; reflexivity|].
  cbn [perform_all map].
  assert (perform self c w
          = {| outcome := Returned tt; world := w;
               emitted := [record_of self c] |}) as Hc.
  { unfold perform, record_of. destruct (call_level c); reflexivity. }
  unfold bind. rewrite Hc. destruct (IH w) as [Hem Hout].
  destruct (perform_all self cs w) as [o w1 t1]. cbn in *. now subst.
Qed.

(** What construction leaves in the logger: floor [DEBUG] and the console,
    detailed-file and JSON-file handlers, in this order, with nothing
    written yet. *)
Lemma init_logger (name log_dir : string) (w : World) (self : WorkflowLogger.t) :
  outcome (WorkflowLogger.__init__ name log_dir w) = Returned self ->
  exists log_file json_file,
    WorkflowLogger.logger self =
      {| logger_name := name; logger_level := DEBUG;
         handlers :=
           [ {| target := Stdout; handler_level := INFO;
                formatter :=
                  PercentFormatter
                    "%(asctime)s - %(name)s - %(levelname)s - %(message)s";
                written := [] |};
             {| target := FileTarget log_file; handler_level := DEBUG;
                formatter :=
                  PercentFormatter
                    "%(asctime)s - %(levelname)s - %(funcName)s:%(lineno)d - %(message)s";
                written := [] |};
             {| target := FileTarget json_file; handler_level := INFO;
                formatter := JsonFormatter; written := [] |} ] |}.
Proof.
  unfold WorkflowLogger.__init__, WorkflowLogger._setup_console_handler,
    WorkflowLogger._setup_file_handler, WorkflowLogger._setup_json_handler,
    mkdir_exist_ok, set_directories, open_append, datetime_now, put_world,
    raise, bind, ret.
  destruct (path_mkdir (files w) (directories w) log_dir) as [e|ds].
  all: cbv beta iota zeta delta
         [outcome world emitted directories files with_fs tick].
  all: repeat (match goal with
               | |- context [bool_decide ?P] => destruct (bool_decide P)
               | |- context [lookup_parent ?a ?b ?c] =>
                   destruct (lookup_parent a b c)
               end).
  all: cbv beta iota zeta delta
         [outcome world emitted directories files with_fs tick].
  all: intros H; try discriminate H.
  injection H as <-.
  cbv [WorkflowLogger.logger addHandler handlers logger_name logger_level app].
  eauto.
Qed.

Lemma accepts_record_of (self : WorkflowLogger.t) (c : log_call) :
  logger_level (WorkflowLogger.logger self) = DEBUG ->
  accepts (WorkflowLogger.logger self) (record_of self c) = true.
Proof.
  intros Hl. unfold accepts, isEnabledFor, record_of. cbn.
  rewrite String.eqb_refl, Hl. now destruct (call_level c).
Qed.

Lemma accepts_all_records (self : WorkflowLogger.t) (cs : list log_call) :
  logger_level (WorkflowLogger.logger self) = DEBUG ->
  List.filter (accepts (WorkflowLogger.logger self)) (map (record_of self) cs)
  = map (record_of self) cs.
Proof.
  intros Hl. induction cs as [|c cs IH]; [reflexivity|].
  cbn [map List.filter]. rewrite accepts_record_of by exact Hl.
  now rewrite IH.
Qed.

End Routing.

(** C6. For every sequence of leveled calls on a constructed logger, each
    of its three sinks has received exactly the records of the calls whose
    level is at or above the sink's minimum, in call order; the minimum is
    INFO for the console, DEBUG for the detailed text file and INFO for the
    JSON-lines file. *)
Theorem sinks_receive_admitted_records
    (name log_dir : string) (w : World) (self : WorkflowLogger.t)
    (cs : list log_call) (w' : World) :
  outcome (WorkflowLogger.__init__ name log_dir w) = Returned self ->
  let recs := map (record_of self) cs in
  let lg := Logging.deliver (WorkflowLogger.logger self)
              (emitted (perform_all self cs w')) in
  emitted (perform_all self cs w') = recs
  /\ Forall (fun h => Logging.written h = List.filter (admits h) recs)
       (Logging.handlers lg)
  /\ exists log_file json_file,
       map (fun h => (Logging.target h, Logging.formatter h,
                      Logging.handler_level h)) (Logging.handlers lg)
       = [ (Logging.Stdout,
            Logging.PercentFormatter
              "%(asctime)s - %(name)s - %(levelname)s - %(message)s",
            INFO);
           (Logging.FileTarget log_file,
            Logging.PercentFormatter
              "%(asctime)s - %(levelname)s - %(funcName)s:%(lineno)d - %(message)s",
            DEBUG);
           (Logging.FileTarget json_file, Logging.JsonFormatter, INFO) ].
Proof.
  intros Hinit recs lg.
  destruct (init_logger _ _ _ _ Hinit) as (lf & jf & Hlg).
  destruct (emitted_perform_all self cs w') as [Hem _].
  assert (List.filter (accepts (WorkflowLogger.logger self)) recs = recs) as Hacc.
  { apply accepts_all_records. now rewrite Hlg. }
  assert (Logging.handlers lg
          = map (fun h => offer_all h recs)
              (Logging.handlers (WorkflowLogger.logger self))) as Hh.
  { subst lg. rewrite deliver_handlers, Hem. fold recs. now rewrite Hacc. }
  split; [exact Hem|]. rewrite Hh, Hlg. cbn [Logging.handlers map]. split.
  - assert (forall h, Logging.written h = []
                       -> Logging.written (offer_all h recs)
                          = List.filter (admits (offer_all h recs)) recs) as Hw.
    { intros h Hnil. rewrite offer_all_written, Hnil. cbn [app].
      apply List.filter_ext. intros r. symmetry.
      apply admits_ext, offer_all_level. }
    constructor; [|constructor; [|constructor; [|constructor]]];
      apply Hw; reflexivity.
  - exists lf, jf.
    repeat rewrite offer_all_level.
    repeat match goal with
           | |- context [offer_all ?h recs] =>
               destruct (offer_all_target recs h) as [-> ->]
           end.
    reflexivity.
Qed.

Lemma sinks_receive_admitted_records_witness :
  let recs := map (record_of demo_logger) demo_calls in
  let lg := Logging.deliver (WorkflowLogger.logger demo_logger)
              (emitted (perform_all demo_logger demo_calls demo_world)) in
  emitted (perform_all demo_logger demo_calls demo_world) = recs
  /\ Forall (fun h => Logging.written h = List.filter (admits h) recs)
       (Logging.handlers lg)
  /\ exists log_file json_file,
       map (fun h => (Logging.target h, Logging.formatter h,
                      Logging.handler_level h)) (Logging.handlers lg)
       = [ (Logging.Stdout,
            Logging.PercentFormatter
              "%(asctime)s - %(name)s - %(levelname)s - %(message)s",
            INFO);
           (Logging.FileTarget log_file,
            Logging.PercentFormatter
              "%(asctime)s - %(levelname)s - %(funcName)s:%(lineno)d - %(message)s",
            DEBUG);
           (Logging.FileTarget json_file, Logging.JsonFormatter, INFO) ].
Proof.
  apply (sinks_receive_admitted_records "wf" "logs" demo_world demo_logger
           demo_calls demo_world).
  vm_compute. reflexivity.
Defined.


(** ** The timer *)

Section Timer.

Context {A : Type}.
Variables (self : WorkflowLogger.t) (operation_name : string).

(** The timer, run to the point where the body has ended. *)
Lemma timer_run (body : M A) (w : World) :
  let t0 := wall_time w (clock_reads w) in
  let rb := body (tick w) in
  let t1 := wall_time (world rb) (clock_reads (world rb)) in
  WorkflowLogger.timer self operation_name body w =
  match outcome rb with
  | Returned a =>
      {| outcome := Returned a; world := tick (world rb);
         emitted := start_record self operation_name
                      :: emitted rb
                      ++ [success_record self operation_name (t1 - t0)] |}
  | Raised e =>
      if is_Exception e then
        {| outcome := Raised e; world := tick (world rb);
           emitted := start_record self operation_name
                        :: emitted rb
                        ++ [failure_record self operation_name (t1 - t0) e] |}
      else
        {| outcome := Raised e; world := world rb;
           emitted := start_record self operation_name :: emitted rb |}
  end.
Proof.
  unfold WorkflowLogger.timer, WorkflowLogger.info, WorkflowLogger.error,
    WorkflowLogger.log, WorkflowLogger.with_context,
    try_except_Exception, bind, time_time, emit, ret, raise.
  cbv zeta. destruct (body (tick w)) as [[a|e] w1 t1]; cbn.
  - reflexivity.
  - destruct (is_Exception e); reflexivity.
Qed.

End Timer.

(** C1, as the code has it. A timer ends the way its body ends and writes
    its start record first. When the body returns, or raises an exception
    that is an [Exception], the records of the body are followed by exactly
    one end record of the timer: the success record after a return, the
    failure record after a raise. When the body raises something that is not
    an [Exception] ([KeyboardInterrupt], [SystemExit], [GeneratorExit]) the
    timer writes no end record. *)
Theorem timer_start_and_end_records
    {A : Type} (self : WorkflowLogger.t) (operation_name : string)
    (body : M A) (w : World) :
  let t0 := wall_time w (clock_reads w) in
  let rb := body (tick w) in
  let t1 := wall_time (world rb) (clock_reads (world rb)) in
  let r := WorkflowLogger.timer self operation_name body w in
  outcome r = outcome rb
  /\ match outcome rb with
     | Returned a =>
         emitted r = start_record self operation_name
                       :: emitted rb
                       ++ [success_record self operation_name (t1 - t0)]
     | Raised e =>
         if is_Exception e
         then emitted r = start_record self operation_name
                            :: emitted rb
                            ++ [failure_record self operation_name (t1 - t0) e]
         else emitted r = start_record self operation_name :: emitted rb
     end.
Proof.
  cbv zeta. rewrite timer_run. cbv zeta.
  destruct (outcome (body (tick w))) as [a|e]; [split; reflexivity|].
  destruct (is_Exception e); split; reflexivity.
Qed.

(** C1 fails as stated: a body interrupted from the keyboard leaves the
    start record without any end record. *)
Lemma timer_interrupted_has_no_end_record :
  let r := WorkflowLogger.timer demo_logger "model_download"
             (raise keyboard_interrupt : M unit) demo_world in
  outcome r = Raised keyboard_interrupt
  /\ length (List.filter is_start_record (emitted r)) = 1%nat
  /\ length (List.filter is_end_record (emitted r)) = 0%nat.
Proof. vm_compute. repeat split. Qed.

(** C7, as the code has it. A failing body is always re-raised unchanged.
    When the failure is an [Exception], the last record of the timer is an
    ERROR record that carries the elapsed seconds and the text of the
    failure; a failure that is not an [Exception] passes through without
    such a record. *)
Theorem timer_reraises_failure
    {A : Type} (self : WorkflowLogger.t) (operation_name : string)
    (body : M A) (w : World) (e : exn) :
  outcome (body (tick w)) = Raised e ->
  let t0 := wall_time w (clock_reads w) in
  let rb := body (tick w) in
  let t1 := wall_time (world rb) (clock_reads (world rb)) in
  let r := WorkflowLogger.timer self operation_name body w in
  outcome r = Raised e
  /\ if is_Exception e
     then emitted r
          = start_record self operation_name
              :: emitted rb
              ++ [ {| rec_name := Logging.logger_name (WorkflowLogger.logger self);
                      rec_level := ERROR;
                      rec_message :=
                        "Failed: " ++ operation_name ++ " ("
                          ++ Py.format_2f (t1 - t0) ++ "s) - " ++ exn_str e |} ]
     else emitted r = start_record self operation_name :: emitted rb.
Proof.
  intros Hb. cbv zeta. rewrite timer_run. cbv zeta. rewrite Hb.
  destruct (is_Exception e); split; reflexivity.
Qed.

Lemma timer_reraises_failure_witness :
  let body : M unit := raise value_error in
  let r := WorkflowLogger.timer demo_logger "model_download" body demo_world in
  outcome r = Raised value_error
  /\ emitted r
     = [ start_record demo_logger "model_download";
         {| rec_name := "wf"; rec_level := ERROR;
            rec_message := "Failed: model_download (1.00s) - bad model name" |} ].
Proof.
  pose proof (timer_reraises_failure demo_logger "model_download"
                (raise value_error : M unit) demo_world value_error eq_refl)
    as H.
  exact H.
Defined.

(** C7 fails as stated: a body that ends the process with [SystemExit]
    fails, and the timer writes no ERROR record for it. *)
Lemma timer_system_exit_has_no_error_record :
  let r := WorkflowLogger.timer demo_logger "model_download"
             (raise system_exit : M unit) demo_world in
  outcome r = Raised system_exit
  /\ List.filter is_error_level (emitted r) = [].
Proof. vm_compute. split; reflexivity. Qed.

(** ** Metrics and thresholds *)

Section MonitorOperation.

Import WorkflowMonitor.

Variables (self : WorkflowMonitor.t) (operation_name : string)
          (duration : Py.number) (success : bool).

Lemma monitor_operation_run (w : World) :
  let lg := Logging.logger_name (WorkflowLogger.logger (logger self)) in
  let threshold := default 120 (thresholds !! operation_name) in
  monitor_operation self operation_name duration success w =
  {| outcome := Returned tt; world := w;
     emitted :=
       [ {| rec_name := lg; rec_level := INFO;
            rec_message :=
              WorkflowLogger.with_context
                ("METRIC: " ++ (operation_name ++ "_duration") ++ "="
                   ++ Py.number_str (Py.round duration 2) ++ "s")
                [("metric_name", Py.VStr (operation_name ++ "_duration"));
                 ("value", Py.VNum (Py.round duration 2));
                 ("unit", Py.VStr "s"); ("tags", Py.VDict [])] |};
         {| rec_name := lg; rec_level := INFO;
            rec_message :=
              WorkflowLogger.with_context
                ("METRIC: " ++ (operation_name ++ "_status") ++ "="
                   ++ Py.number_str (Py.NInt (if success then 1 else 0)) ++ "")
                [("metric_name", Py.VStr (operation_name ++ "_status"));
                 ("value", Py.VNum (Py.NInt (if success then 1 else 0)));
                 ("unit", Py.VStr ""); ("tags", Py.VDict [])] |} ]
       ++ (if Py.gt duration (Py.NInt threshold)
           then [ {| rec_name := lg; rec_level := WARNING;
                     rec_message :=
                       WorkflowLogger.with_context
                         ("Performance threshold exceeded: " ++ operation_name)
                         [("duration", Py.VNum duration);
                          ("threshold", Py.VNum (Py.NInt threshold))] |} ]
           else []) |}.
Proof.
  unfold monitor_operation, WorkflowLogger.metric, WorkflowLogger.warning,
    WorkflowLogger.info, WorkflowLogger.log, bind, emit, ret.
  cbv zeta.
  destruct (Py.gt duration (Py.NInt _)); reflexivity.
Qed.

End MonitorOperation.

(** C3. The warning of [monitor_operation] agrees with the classifier of
    the specification over the threshold table of the code and the default
    of 120 seconds: the threshold is the table entry of the operation, or
    120 when there is none; the operation is within budget exactly when its
    duration is at most the threshold; and one WARNING record, carrying the
    duration and the threshold, is written exactly when it is not. The two
    examples of the specification evaluate as stated. *)
Theorem monitor_operation_classifies
    (self : WorkflowMonitor.t) (operation_name : string)
    (duration : Py.number) (success : bool) (w : World) :
  let c := Spec.classify WorkflowMonitor.thresholds 120 operation_name duration in
  let r := WorkflowMonitor.monitor_operation self operation_name duration success w in
  Spec.thresholdUsed c
  = default 120 (WorkflowMonitor.thresholds !! operation_name)
  /\ (Spec.withinBudget c = true
      <-> (Py.number_value duration <= inject_Z (Spec.thresholdUsed c))%Q)
  /\ List.filter is_warning_level (emitted r)
     = (if Spec.withinBudget c then []
        else [ {| rec_name :=
                    Logging.logger_name
                      (WorkflowLogger.logger (WorkflowMonitor.logger self));
                  rec_level := WARNING;
                  rec_message :=
                    WorkflowLogger.with_context
                      ("Performance threshold exceeded: " ++ operation_name)
                      [("duration", Py.VNum duration);
                       ("threshold",
                        Py.VNum (Py.NInt (Spec.thresholdUsed c)))] |} ])
  /\ Spec.classify WorkflowMonitor.thresholds 120 "model_download"
       (Py.NInt 301)
     = {| Spec.withinBudget := false; Spec.thresholdUsed := 300 |}
  /\ Spec.classify {[ "model_download" := 300 ]} 120 "model_download"
       (Py.NInt 301)
     = {| Spec.withinBudget := false; Spec.thresholdUsed := 300 |}
  /\ Spec.classify WorkflowMonitor.thresholds 120 "unknown_op" (Py.NInt 50)
     = {| Spec.withinBudget := true; Spec.thresholdUsed := 120 |}.
Proof.
  cbv zeta. rewrite monitor_operation_run. cbv zeta.
  unfold Spec.classify. cbn [Spec.withinBudget Spec.thresholdUsed emitted].
  split; [now destruct (WorkflowMonitor.thresholds !! operation_name)|].
  split; [apply Qle_bool_iff|].
  split; [|repeat split; vm_compute; reflexivity].
  unfold Py.gt, default. cbn [Py.number_value].
  destruct (WorkflowMonitor.thresholds !! operation_name) as [t|];
    cbn [id]; destruct (Qle_bool _ _); reflexivity.
Qed.

Lemma prefix_empty (s : string) : String.prefix "" s = true.
Proof. now destruct s. Qed.

Lemma metric_message_is_metric (s1 s2 : string) :
  String.prefix "METRIC: " (("METRIC: " ++ s1) ++ s2) = true.
Proof. apply prefix_empty. Qed.

Lemma threshold_message_is_not_metric (s1 s2 : string) :
  String.prefix "METRIC: " (("Performance threshold exceeded: " ++ s1) ++ s2)
  = false.
Proof. reflexivity. Qed.

Lemma round_float_2_hundredths (q : Q) :
  (Py.round_float q 2
   == inject_Z (Py.round_half_even (q * inject_Z 100)) / inject_Z 100)%Q.
Proof.
  unfold Py.round_float. rewrite Qred_correct.
  change (10 ^ Z.of_nat 2) with 100. change (Z.to_pos 100) with 100%positive.
  unfold Qeq, Qdiv, Qmult, Qinv, inject_Z. cbn [Qnum Qden]. lia.
Qed.

(** C10. Whatever the duration and the threshold, [monitor_operation]
    returns after writing exactly two metric records: first
    [<name>_duration], with the duration rounded to two decimals as value
    and unit [s]; then [<name>_status], with value 1 for a success and 0 for
    a failure. The rounded value of a float is a whole number of hundredths
    within half a hundredth of the duration; an [int] is kept as it is. *)
Theorem monitor_operation_metrics
    (self : WorkflowMonitor.t) (operation_name : string)
    (duration : Py.number) (success : bool) (w : World) :
  let lg := Logging.logger_name
              (WorkflowLogger.logger (WorkflowMonitor.logger self)) in
  let r := WorkflowMonitor.monitor_operation self operation_name duration success w in
  outcome r = Returned tt
  /\ List.filter is_metric_record (emitted r)
     = [ {| rec_name := lg; rec_level := INFO;
            rec_message :=
              ("METRIC: " ++ (operation_name ++ "_duration") ++ "="
                 ++ Py.number_str (Py.round duration 2) ++ "s")
                ++ " | Context: "
                ++ Py.json_dumps
                     (Py.VDict
                        [("metric_name", Py.VStr (operation_name ++ "_duration"));
                         ("value", Py.VNum (Py.round duration 2));
                         ("unit", Py.VStr "s"); ("tags", Py.VDict [])]) |};
         {| rec_name := lg; rec_level := INFO;
            rec_message :=
              ("METRIC: " ++ (operation_name ++ "_status") ++ "="
                 ++ (if success then "1" else "0") ++ "")
                ++ " | Context: "
                ++ Py.json_dumps
                     (Py.VDict
                        [("metric_name", Py.VStr (operation_name ++ "_status"));
                         ("value", Py.VNum (Py.NInt (if success then 1 else 0)));
                         ("unit", Py.VStr ""); ("tags", Py.VDict [])]) |} ]
  /\ match duration with
     | Py.NInt z => Py.round duration 2 = Py.NInt z
     | Py.NFloat q =>
         exists q',
           Py.round duration 2 = Py.NFloat q'
           /\ (q' == inject_Z (Py.round_half_even (q * inject_Z 100))
                     / inject_Z 100)%Q
           /\ (q - (1 # 200) <= q' <= q + (1 # 200))%Q
     end.
Proof.
  cbv zeta. rewrite monitor_operation_run. cbv zeta. cbn [outcome emitted].
  split; [reflexivity|]. split.
  - assert (Py.number_str (Py.NInt (if success then 1 else 0))
            = if success then "1" else "0") as -> by now destruct success.
    destruct (Py.gt _ _);
      cbv beta iota delta [WorkflowLogger.with_context app List.filter
                             is_metric_record rec_message];
      rewrite !metric_message_is_metric,
        ?threshold_message_is_not_metric; reflexivity.
  - destruct duration as [z|q]; [reflexivity|].
    exists (Py.round_float q 2). split; [reflexivity|].
    split; [apply round_float_2_hundredths | apply round_float_2_close].
Qed.

(** ** Error tracking *)

Section TrackError.

Import WorkflowMonitor.

Lemma is_critical_error (error_type : string) :
  existsb (String.eqb error_type) critical_errors
  = bool_decide (error_type ∈ critical_errors).
Proof.
  unfold critical_errors. cbn [existsb].
  destruct (String.eqb_spec error_type "ollama_service_down") as [->|H1];
    [reflexivity|].
  destruct (String.eqb_spec error_type "model_download_failed") as [->|H2];
    [reflexivity|].
  cbn. symmetry. apply bool_decide_eq_false.
  rewrite !elem_of_cons, elem_of_nil. tauto.
Qed.

Lemma track_error_run (self : t) (error_type error_message : string)
    (context : option (list (string * Py.value))) (w : World) :
  track_error self error_type error_message context w =
  {| outcome := Returned tt; world := w;
     emitted :=
       {| rec_name := Logging.logger_name (WorkflowLogger.logger (logger self));
          rec_level := ERROR;
          rec_message :=
            WorkflowLogger.with_context ("Error: " ++ error_type)
              [("error_type", Py.VStr error_type);
               ("error_message", Py.VStr error_message);
               ("workflow_run", workflow_run self);
               ("context", Py.VDict (default [] context))] |}
       :: (if bool_decide (error_type ∈ critical_errors)
           then [ {| rec_name :=
                       Logging.logger_name (WorkflowLogger.logger (logger self));
                     rec_level := ERROR;
                     rec_message :=
                       "CRITICAL: " ++ error_type ++ " - " ++ error_message |} ]
           else []) |}.
Proof.
  unfold track_error, WorkflowLogger.error, WorkflowLogger.log, bind, emit, ret.
  rewrite is_critical_error.
  destruct (bool_decide (error_type ∈ critical_errors)); reflexivity.
Qed.

End TrackError.

(** C2, as the code has it. [track_error] writes one ERROR record for the
    error, and a second ERROR record, prefixed [CRITICAL: ], exactly when
    the error type is one of [ollama_service_down] and
    [model_download_failed]; it writes nothing else. So
    [ollama_service_down] yields two ERROR records and [minor_glitch] one. *)
Theorem track_error_records
    (self : WorkflowMonitor.t) (error_type error_message : string)
    (context : option (list (string * Py.value))) (w : World) :
  let r := WorkflowMonitor.track_error self error_type error_message context w in
  let critical :=
    bool_decide (error_type ∈ ["ollama_service_down"; "model_download_failed"]) in
  outcome r = Returned tt
  /\ List.filter is_error_level (emitted r) = emitted r
  /\ length (emitted r) = (if critical then 2 else 1)%nat
  /\ nth_error (emitted r) 1
     = (if critical
        then Some {| rec_name :=
                       Logging.logger_name
                         (WorkflowLogger.logger (WorkflowMonitor.logger self));
                     rec_level := ERROR;
                     rec_message :=
                       "CRITICAL: " ++ error_type ++ " - " ++ error_message |}
        else None)
  /\ length (emitted (WorkflowMonitor.track_error self "ollama_service_down"
                        "x" None w)) = 2%nat
  /\ length (emitted (WorkflowMonitor.track_error self "minor_glitch"
                        "x" None w)) = 1%nat.
Proof.
  cbv zeta. rewrite !track_error_run. cbn [outcome emitted].
  change WorkflowMonitor.critical_errors
    with ["ollama_service_down"; "model_download_failed"].
  split; [reflexivity|].
  split; [|split; [|split; [|split]]];
    try (destruct (bool_decide (error_type ∈ _)); reflexivity).
  - reflexivity.
  - reflexivity.
Qed.

(** C2 fails as stated: the kind [service unreachable] is not on the list of
    the code, and tracking it writes a single ERROR record. *)
Lemma track_error_service_unreachable_once :
  length (List.filter is_error_level
            (emitted (WorkflowMonitor.track_error demo_monitor
                        "service unreachable" "x" None demo_world))) = 1%nat.
Proof. vm_compute. reflexivity. Qed.

(** ** The health check *)

Section HealthCheck.

Import WorkflowMonitor.

Variable self : WorkflowMonitor.t.

(** The health check, case by case on what the probes answer. *)
Lemma health_check_run (w : World) :
  health_check self w =
  match disk_usage w with
  | inl e => {| outcome := Raised e; world := tick w; emitted := [] |}
  | inr (total, used, free) =>
      if total =? 0
      then {| outcome :=
                Raised {| exn_class := ExceptionClass "ZeroDivisionError";
                          exn_str := "division by zero" |};
              world := tick w; emitted := [] |}
      else
        match aws_probe w with
        | ProcRaised e =>
            {| outcome := Raised e; world := tick w; emitted := [] |}
        | probe =>
            let free_percent :=
              Py.float_mul (Py.float_div free total) (inject_Z 100) in
            let health :=
              snapshot (Datetime.isoformat (wall_now w (clock_reads w)))
                (workflow_run self)
                (if negb (Qle_bool free_percent (inject_Z 10))
                 then "healthy" else "warning")
                (Py.round_float free_percent 1)
                (path_exists w "logs")
                (proc_succeeds probe) in
            {| outcome := Returned health; world := tick w;
               emitted :=
                 [ {| rec_name :=
                        Logging.logger_name (WorkflowLogger.logger (logger self));
                      rec_level := INFO;
                      rec_message :=
                        WorkflowLogger.with_context "Health check completed"
                          health |} ] |}
        end
  end.
Proof.
  unfold health_check, shutil_disk_usage, true_div, exists_,
    S3Manager.check_aws_configured, S3Manager.run_aws_command,
    S3Manager.subprocess_run_checked, WorkflowLogger.info, WorkflowLogger.log,
    datetime_now, get_world, bind, emit, raise, ret, aws_probe.
  cbn [disk_usage tick subprocess_run].
  destruct (disk_usage w) as [e|[[total used] free]]; [reflexivity|].
  destruct (total =? 0); [reflexivity|].
  cbn [subprocess_run tick].
  destruct (subprocess_run w _); reflexivity.
Qed.

End HealthCheck.

(** C4, as the code has it. When the disk query answers with a non-zero
    total and the [aws] command completes, exits with an error status or is
    not installed, the health check returns a snapshot; its reachability
    check is [healthy] when the command completed and [degraded] otherwise.
    (A failing disk query, and any other exception of the command, reach
    the caller.) *)
Theorem health_check_returns_when_probes_answer
    (self : WorkflowMonitor.t) (w : World) (total used free : Z) :
  disk_usage w = inr (total, used, free) ->
  total <> 0 ->
  proc_raises (aws_probe w) = false ->
  exists health checks,
    outcome (WorkflowMonitor.health_check self w) = Returned health
    /\ Py.dict_get health "checks" = Some (Py.VDict checks)
    /\ Py.dict_get checks "aws_configured"
       = Some (Py.VDict
                 [ ("status",
                    Py.VStr (if proc_succeeds (aws_probe w) then "healthy"
                             else "degraded"));
                   ("configured", Py.VBool (proc_succeeds (aws_probe w))) ]).
Proof.
  intros Hdisk Htotal Hprobe. rewrite health_check_run, Hdisk.
  apply Z.eqb_neq in Htotal. rewrite Htotal.
  destruct (aws_probe w) eqn:Hp; try discriminate Hprobe;
    cbv zeta; cbn [outcome]; eexists _, _;
    (split; [reflexivity|]); split; reflexivity.
Qed.

Lemma health_check_returns_when_probes_answer_witness :
  exists health checks,
    outcome (WorkflowMonitor.health_check demo_monitor demo_world)
    = Returned health
    /\ Py.dict_get health "checks" = Some (Py.VDict checks)
    /\ Py.dict_get checks "aws_configured"
       = Some (Py.VDict [ ("status", Py.VStr "degraded");
                          ("configured", Py.VBool false) ]).
Proof.
  apply (health_check_returns_when_probes_answer demo_monitor demo_world
           100 40 60).
  - reflexivity.
  - lia.
  - reflexivity.
Defined.

(** C4 fails as stated: a failing disk query, and an [aws] command that
    raises something else than the two caught errors, both make the health
    check raise. *)
Lemma health_check_raises_on_probe_failure :
  outcome (WorkflowMonitor.health_check demo_monitor broken_disk_world)
  = Raised disk_error
  /\ outcome (WorkflowMonitor.health_check demo_monitor unrunnable_aws_world)
     = Raised permission_error.
Proof. split; vm_compute; reflexivity. Qed.

(** C5, as the code has it. Every snapshot the health check returns has
    the fields [timestamp], [workflow_run] and [checks] and nothing else, and
    [checks] holds exactly three entries: [disk_space], [healthy] when the
    percentage the code computes, the double product of the double quotient
    [free / total] and 100, exceeds 10 and [warning] otherwise;
    [logs_directory], [healthy] when a directory or a regular file exists at
    the path [logs] and [warning] otherwise; [aws_configured], [healthy] when
    the probe succeeds and [degraded] otherwise. *)
Theorem health_check_snapshot
    (self : WorkflowMonitor.t) (w : World) (health : list (string * Py.value)) :
  outcome (WorkflowMonitor.health_check self w) = Returned health ->
  exists total used free,
    disk_usage w = inr (total, used, free)
    /\ total <> 0
    /\ let free_percent :=
         Py.float_mul (Py.float_div free total) (inject_Z 100) in
       let logs_exists :=
         bool_decide ("logs" ∈ directories w)
         || bool_decide (is_Some (files w !! "logs")) in
       health
       = [ ("timestamp",
            Py.VStr (Datetime.isoformat (wall_now w (clock_reads w))));
           ("workflow_run", WorkflowMonitor.workflow_run self);
           ("checks",
            Py.VDict
              [ ("disk_space",
                 Py.VDict
                   [ ("status",
                      Py.VStr (if Qlt_le_dec (inject_Z 10) free_percent
                               then "healthy" else "warning"));
                     ("free_percent",
                      Py.VNum (Py.NFloat (Py.round_float free_percent 1))) ]);
                ("logs_directory",
                 Py.VDict
                   [ ("status",
                      Py.VStr (if logs_exists then "healthy" else "warning"));
                     ("exists", Py.VBool logs_exists) ]);
                ("aws_configured",
                 Py.VDict
                   [ ("status",
                      Py.VStr (if proc_succeeds (aws_probe w) then "healthy"
                               else "degraded"));
                     ("configured",
                      Py.VBool (proc_succeeds (aws_probe w))) ]) ]) ].
Proof.
  rewrite health_check_run.
  destruct (disk_usage w) as [e|[[total used] free]]; [discriminate|].
  destruct (Z.eqb_spec total 0) as [|Htotal]; [discriminate|].
  set (fp := Py.float_mul (Py.float_div free total) (inject_Z 100)).
  assert ((if negb (Qle_bool fp (inject_Z 10)) then "healthy" else "warning")
          = (if Qlt_le_dec (inject_Z 10) fp then "healthy" else "warning"))
    as Hstatus.
  { destruct (Qlt_le_dec (inject_Z 10) fp) as [Hlt|Hle].
    - destruct (Qle_bool fp (inject_Z 10)) eqn:Hb; [|reflexivity].
      apply Qle_bool_iff in Hb. exfalso. exact (Qlt_not_le _ _ Hlt Hb).
    - apply Qle_bool_iff in Hle. now rewrite Hle. }
  intros H. exists total, used, free.
  split; [reflexivity|]. split; [exact Htotal|].
  destruct (aws_probe w) eqn:Hp; cbv zeta in H; cbn [outcome] in H;
    try discriminate H; injection H as <-;
    unfold snapshot, path_exists; cbv zeta; fold fp; rewrite Hstatus;
    reflexivity.
Qed.

Lemma health_check_snapshot_witness :
  exists total used free,
    disk_usage demo_world = inr (total, used, free)
    /\ total <> 0
    /\ let free_percent :=
         Py.float_mul (Py.float_div free total) (inject_Z 100) in
       let logs_exists :=
         bool_decide ("logs" ∈ directories demo_world)
         || bool_decide (is_Some (files demo_world !! "logs")) in
       snapshot "2024-03-01T12:00:03" (Py.VStr "999") "healthy" 60 false false
       = [ ("timestamp",
            Py.VStr (Datetime.isoformat
                       (wall_now demo_world (clock_reads demo_world))));
           ("workflow_run", WorkflowMonitor.workflow_run demo_monitor);
           ("checks",
            Py.VDict
              [ ("disk_space",
                 Py.VDict
                   [ ("status",
                      Py.VStr (if Qlt_le_dec (inject_Z 10) free_percent
                               then "healthy" else "warning"));
                     ("free_percent",
                      Py.VNum (Py.NFloat (Py.round_float free_percent 1))) ]);
                ("logs_directory",
                 Py.VDict
                   [ ("status",
                      Py.VStr (if logs_exists then "healthy" else "warning"));
                     ("exists", Py.VBool logs_exists) ]);
                ("aws_configured",
                 Py.VDict
                   [ ("status",
                      Py.VStr (if proc_succeeds (aws_probe demo_world)
                               then "healthy" else "degraded"));
                     ("configured",
                      Py.VBool (proc_succeeds (aws_probe demo_world))) ]) ]) ].
Proof.
  apply (health_check_snapshot demo_monitor demo_world).
  vm_compute. reflexivity.
Defined.

(** C5 fails as stated, twice. With a regular file called [logs] and no
    directory of that name, the logs check is [healthy]. With
    [10 ^ 16 + 1] bytes free of [10 ^ 17], the free percentage exceeds 10,
    yet the quotient and the product round to the double 10 and the disk
    check is [warning]. *)
Lemma health_check_file_named_logs_and_rounding :
  (("logs" ∉ directories logs_file_world)
   /\ exists health checks,
        outcome (WorkflowMonitor.health_check demo_monitor logs_file_world)
        = Returned health
        /\ Py.dict_get health "checks" = Some (Py.VDict checks)
        /\ Py.dict_get checks "logs_directory"
           = Some (Py.VDict [ ("status", Py.VStr "healthy");
                              ("exists", Py.VBool true) ]))
  /\ (inject_Z 10
      < inject_Z (10 ^ 16 + 1) / inject_Z (10 ^ 17) * inject_Z 100)%Q
  /\ exists health checks,
       outcome (WorkflowMonitor.health_check demo_monitor tight_disk_world)
       = Returned health
       /\ Py.dict_get health "checks" = Some (Py.VDict checks)
       /\ Py.dict_get checks "disk_space"
          = Some (Py.VDict [ ("status", Py.VStr "warning");
                             ("free_percent", Py.VNum (Py.NFloat 10)) ]).
Proof.
  split; [split|split].
  - intros H. vm_compute in H. discriminate H.
  - eexists _, _. split; [vm_compute; reflexivity|].
    split; vm_compute; reflexivity.
  - vm_compute. reflexivity.
  - eexists _, _. split; [vm_compute; reflexivity|].
    split; vm_compute; reflexivity.
Qed.

(** ** Paths and directories *)

Section Paths.








Variable fs : gmap string string.

Lemma os_mkdir_made (ds ds' : gset string) (p : string) :
  os_mkdir fs ds p = inr ds' -> ds' = {[ p ]} ∪ ds.
Proof.
  unfold os_mkdir. destruct (_ || _); [discriminate|].
  destruct (lookup_parent fs ds p); [discriminate|].
  intros H. now injection H as <-.
Qed.

Lemma os_mkdir_file (ds : gset string) (p : string) :
  is_file fs p = true -> os_mkdir fs ds p = inl EEXIST.
Proof. intros H. unfold os_mkdir. now rewrite H, orb_true_r. Qed.

Lemma os_mkdir_directory (ds : gset string) (p : string) :
  p ∈ ds -> os_mkdir fs ds p = inl EEXIST.
Proof.
  intros H. unfold os_mkdir. now rewrite (bool_decide_eq_true_2 _ H).
Qed.

Lemma is_file_lookup (p : string) :
  is_file fs p = false <-> fs !! p = None.
Proof.
  unfold is_file. rewrite bool_decide_eq_false, <- eq_None_not_Some.
  reflexivity.
Qed.

(** Creating a directory without [parents]: the directory is added, or was
    there already. *)
Lemma path_mkdir_made (ds ds' : gset string) (p : string) :
  path_mkdir fs ds p = inr ds' -> ds' = {[ p ]} ∪ ds.
Proof.
  unfold path_mkdir. destruct (os_mkdir fs ds p) as [e|ds0] eqn:Hos.
  - assert (is_dir fs ds p = true -> @inr exn _ ds = inr ds' -> ds' = {[ p ]} ∪ ds)
      as Hdir.
    { intros Hd H. injection H as <-. unfold is_dir in Hd.
      apply andb_prop in Hd as [Hd _]. apply bool_decide_eq_true in Hd.
      symmetry. apply subseteq_union_1_L. now apply singleton_subseteq_l. }
    destruct e; try discriminate;
      destruct (is_dir fs ds p); try discriminate; now apply Hdir.
  - intros H. injection H as <-. exact (os_mkdir_made _ _ _ Hos).
Qed.

(** A regular file in the way is an error, with or without [parents]. *)
Lemma path_mkdir_file (ds : gset string) (p : string) :
  is_file fs p = true -> path_mkdir fs ds p = inl (errno_error EEXIST p).
Proof.
  intros H. unfold path_mkdir, is_dir.
  now rewrite (os_mkdir_file ds p H), H, andb_false_r.
Qed.



Lemma path_mkdir_directory (ds : gset string) (p : string) :
  p ∈ ds -> is_file fs p = false -> path_mkdir fs ds p = inr ds.
Proof.
  intros Hd Hf. unfold path_mkdir, is_dir.
  now rewrite (os_mkdir_directory ds p Hd), Hf, (bool_decide_eq_true_2 _ Hd).
Qed.



(** The three ways of [mkdir] on concrete paths: missing parents are made
    with [parents=True] and are an error without, and a regular file above
    the path is an error either way. *)
Example path_mkdir_parents_makes_parents :
  path_mkdir_parents ∅ "results/run-999" (ancestors "results/run-999") ∅
  = inr {[ "results/run-999"; "results" ]}.
Proof. vm_compute. reflexivity. Qed.

Example path_mkdir_needs_parent :
  path_mkdir ∅ ∅ "missing/logs"
  = inl (os_error "FileNotFoundError" "[Errno 2] No such file or directory"
           "missing/logs").
Proof. vm_compute. reflexivity. Qed.

Example path_mkdir_parents_under_file :
  path_mkdir_parents {[ "logs" := "notes" ]} "logs/old/run"
    (ancestors "logs/old/run") ∅
  = inl (os_error "NotADirectoryError" "[Errno 20] Not a directory"
           "logs/old/run").
Proof. vm_compute. reflexivity. Qed.

End Paths.

(** ** The summary *)

Section Summary.

Import WorkflowMonitor.

Variables (self : WorkflowMonitor.t) (result_dir : string).

Lemma path_join_neq (dir name : string) : path_join dir name <> dir.
Proof.
  unfold path_join. induction dir as [|c dir IH]; [discriminate|].
  intros H. injection H as H. exact (IH H).
Qed.



End Summary.






(** * Further properties of the code *)

(** ** The JSON formatter *)

Section JsonLines.

Lemma printable_app (s1 s2 : string) :
  printable (s1 ++ s2) = printable s1 && printable s2.
Proof.
  induction s1 as [|c s1 IH]; [reflexivity|].
  change (printable (String c s1 ++ s2))
    with (printable_char c && printable (s1 ++ s2)).
  cbn [printable]. now rewrite IH, andb_assoc.
Qed.

Lemma json_escape_char_printable (c : ascii) :
  printable (Py.json_escape_char c) = true.
Proof. destruct c as [[] [] [] [] [] [] [] []]; vm_compute; reflexivity. Qed.

Lemma json_string_printable (s : string) :
  printable (Py.json_string s) = true.
Proof.
  unfold Py.json_string. rewrite !printable_app.
  assert (printable (Py.json_escape s) = true) as ->.
  { induction s as [|c s IH]; [reflexivity|].
    cbn [Py.json_escape]. now rewrite printable_app, json_escape_char_printable. }
  reflexivity.
Qed.

Lemma pretty_N_char_printable (x : N) :
  printable_char (pretty_N_char x) = true.
Proof. unfold pretty_N_char. repeat case_match; reflexivity. Qed.

Lemma pretty_N_go_printable (x : N) (s : string) :
  printable s = true -> printable (pretty_N_go x s) = true.
Proof.
  revert s. induction (N.lt_wf_0 x) as [x _ IH]. intros s Hs.
  destruct (N.eq_dec x 0%N) as [->|Hx]; [now rewrite pretty_N_go_0|].
  rewrite pretty_N_go_step by lia. apply IH.
  - apply N.div_lt; lia.
  - cbn [printable]. now rewrite pretty_N_char_printable.
Qed.

Lemma pretty_Z_printable (z : Z) : printable (pretty z) = true.
Proof.
  assert (forall p : positive, printable (pretty p) = true) as Hpos.
  { intros p. unfold pretty, pretty_positive, pretty, pretty_N.
    destruct (decide (N.pos p = 0%N)); [discriminate|].
    now apply pretty_N_go_printable. }
  destruct z as [|p|p]; [reflexivity|apply Hpos|].
  unfold pretty, pretty_Z. change ("-" +:+ pretty p) with ("-" ++ pretty p).
  rewrite printable_app. exact (Hpos p).
Qed.

End JsonLines.

(** X1. Whatever the message, the logger name and the place of the call,
    the line [JsonFormatter.format] produces for a record consists of
    printable ASCII characters only; in particular it holds no line break,
    so each record is one line of the JSON log. *)
Theorem json_format_is_one_printable_line (record : LogRecord)
    (o : JsonFormatter.origin) :
  printable (JsonFormatter.format record o) = true.
Proof.
  unfold JsonFormatter.format, Py.json_dumps.
  cbn [Py.json_dumps_at Py.join Py.number_str].
  rewrite !printable_app, !json_string_printable, pretty_Z_printable.
  reflexivity.
Qed.

(** ** Construction of the logger *)

Section LoggerConstruction.

Variables (name log_dir : string).

Lemma logger_init_run (w : World) :
  WorkflowLogger.__init__ name log_dir w =
  match path_mkdir (files w) (directories w) log_dir with
  | inl e => {| outcome := Raised e; world := w; emitted := [] |}
  | inr ds =>
    if bool_decide (log_file name log_dir w ∈ ds)
    then {| outcome :=
              Raised (os_error "IsADirectoryError" "[Errno 21] Is a directory"
                        (log_file name log_dir w));
            world := tick (with_fs w ds (files w)); emitted := [] |}
    else
      match lookup_parent (files w) ds (log_file name log_dir w) with
      | Some e =>
          {| outcome := Raised (errno_error e (log_file name log_dir w));
             world := tick (with_fs w ds (files w)); emitted := [] |}
      | None =>
      let fs1 := <[ log_file name log_dir w := default "" (files w !! log_file name log_dir w) ]> (files w) in
      if bool_decide (json_file name log_dir w ∈ ds)
      then {| outcome :=
                Raised (os_error "IsADirectoryError"
                          "[Errno 21] Is a directory" (json_file name log_dir w));
              world := tick (tick (with_fs w ds fs1)); emitted := [] |}
      else
        match lookup_parent fs1 ds (json_file name log_dir w) with
        | Some e =>
            {| outcome := Raised (errno_error e (json_file name log_dir w));
               world := tick (tick (with_fs w ds fs1)); emitted := [] |}
        | None =>
        {| outcome :=
             Returned
               {| WorkflowLogger.name := name;
                  WorkflowLogger.log_dir := log_dir;
                  WorkflowLogger.logger :=
                    {| Logging.logger_name := name;
                       Logging.logger_level := DEBUG;
                       Logging.handlers :=
                         [ {| Logging.target := Logging.Stdout;
                              Logging.handler_level := INFO;
                              Logging.formatter :=
                                Logging.PercentFormatter
                                  "%(asctime)s - %(name)s - %(levelname)s - %(message)s";
                              Logging.written := [] |};
                           {| Logging.target := Logging.FileTarget (log_file name log_dir w);
                              Logging.handler_level := DEBUG;
                              Logging.formatter :=
                                Logging.PercentFormatter
                                  "%(asctime)s - %(levelname)s - %(funcName)s:%(lineno)d - %(message)s";
                              Logging.written := [] |};
                           {| Logging.target := Logging.FileTarget (json_file name log_dir w);
                              Logging.handler_level := INFO;
                              Logging.formatter := Logging.JsonFormatter;
                              Logging.written := [] |} ] |} |};
           world :=
             tick (tick (with_fs w ds
                           (<[ json_file name log_dir w := default "" (fs1 !! json_file name log_dir w) ]> fs1)));
           emitted := [] |}
        end
      end
  end.
Proof.
  unfold WorkflowLogger.__init__, WorkflowLogger._setup_console_handler,
    WorkflowLogger._setup_file_handler, WorkflowLogger._setup_json_handler,
    mkdir_exist_ok, set_directories, open_append, datetime_now, put_world,
    raise, bind, ret, log_file, json_file.
  cbv zeta.
  destruct (path_mkdir (files w) (directories w) log_dir) as [e|ds];
    [reflexivity|].
  cbv beta iota zeta delta
    [outcome world emitted directories files with_fs tick clock_reads wall_now].
  destruct (bool_decide (_ ∈ _)); [reflexivity|].
  destruct (lookup_parent _ _ _); [reflexivity|].
  cbv beta iota zeta delta
    [outcome world emitted directories files with_fs tick clock_reads wall_now].
  destruct (bool_decide (_ ∈ _)); [reflexivity|].
  destruct (lookup_parent _ _ _); reflexivity.
Qed.

(** The log directory can be made when nothing but a directory is at its
    place and its parent is there. *)
Lemma path_mkdir_log_dir (w : World) :
  files w !! log_dir = None ->
  (forall q, parent log_dir = Some q -> q ∈ directories w) ->
  path_mkdir (files w) (directories w) log_dir
  = inr ({[ log_dir ]} ∪ directories w).
Proof.
  intros Hfile Hparent.
  assert (exists ds, path_mkdir (files w) (directories w) log_dir = inr ds)
    as [ds Hds].
  { unfold path_mkdir, os_mkdir, lookup_parent, is_dir.
    rewrite (proj2 (is_file_lookup _ _) Hfile).
    destruct (bool_decide (log_dir ∈ directories w)); cbn [orb andb negb];
      [eauto|].
    destruct (parent log_dir) as [q|]; [|eauto].
    rewrite (bool_decide_eq_true_2 _ (Hparent q eq_refl)). eauto. }
  rewrite Hds. f_equal. exact (path_mkdir_made _ _ _ _ Hds).
Qed.

Lemma lookup_parent_inside (fs : gmap string string) (ds : gset string)
    (p dir : string) :
  parent p = Some dir -> dir ∈ ds -> lookup_parent fs ds p = None.
Proof.
  intros Hp Hd. unfold lookup_parent.
  now rewrite Hp, (bool_decide_eq_true_2 _ Hd).
Qed.

End LoggerConstruction.

(** X2. Constructing a logger succeeds without writing a record where the
    log directory can be made and the log files opened: no regular file sits
    at the log directory, the directory above it (if the path has one)
    exists, and the two log file names lie directly in the log directory (the
    name holds no separator) with no directory in their place. Afterwards
    the log directory exists, both log files exist, every file that existed
    keeps its content (the files are opened for appending), and no other
    file has appeared. *)
Theorem logger_init_creates_log_files (name log_dir : string) (w : World) :
  files w !! log_dir = None ->
  (forall q, parent log_dir = Some q -> q ∈ directories w) ->
  parent (log_file name log_dir w) = Some log_dir ->
  parent (json_file name log_dir w) = Some log_dir ->
  log_file name log_dir w ∉ directories w ->
  json_file name log_dir w ∉ directories w ->
  let r := WorkflowLogger.__init__ name log_dir w in
  (exists self, outcome r = Returned self
                /\ WorkflowLogger.name self = name
                /\ WorkflowLogger.log_dir self = log_dir)
  /\ emitted r = []
  /\ directories (world r) = {[ log_dir ]} ∪ directories w
  /\ is_Some (files (world r) !! log_file name log_dir w)
  /\ is_Some (files (world r) !! json_file name log_dir w)
  /\ (forall p text, files w !! p = Some text ->
                     files (world r) !! p = Some text)
  /\ (forall p, is_Some (files (world r) !! p) ->
                p = log_file name log_dir w \/ p = json_file name log_dir w
                \/ is_Some (files w !! p)).
Proof.
  intros Hfile Hparent Hlp Hjp Hlog Hjson. cbv zeta.
  rewrite logger_init_run. cbv zeta.
  rewrite (path_mkdir_log_dir _ _ Hfile Hparent).
  assert (log_dir ∈ ({[ log_dir ]} ∪ directories w : gset string)) as Hin
    by (apply elem_of_union_l, elem_of_singleton; reflexivity).
  rewrite bool_decide_eq_false_2.
  2:{ rewrite elem_of_union, elem_of_singleton.
      intros [Heq|Hd]; [exact (path_join_neq _ _ Heq) | exact (Hlog Hd)]. }
  rewrite (lookup_parent_inside _ _ _ _ Hlp Hin).
  rewrite bool_decide_eq_false_2.
  2:{ rewrite elem_of_union, elem_of_singleton.
      intros [Heq|Hd]; [exact (path_join_neq _ _ Heq) | exact (Hjson Hd)]. }
  rewrite (lookup_parent_inside _ _ _ _ Hjp Hin).
  cbn [outcome world emitted directories files with_fs tick
         WorkflowLogger.name WorkflowLogger.log_dir].
  set (lf := log_file name log_dir w). set (jf := json_file name log_dir w).
  split; [eauto|]. split; [reflexivity|]. split; [reflexivity|].
  split; [|split; [|split]].
  - destruct (decide (jf = lf)) as [->|Hne].
    + rewrite lookup_insert_eq. eauto.
    + rewrite lookup_insert_ne, lookup_insert_eq by exact Hne. eauto.
  - rewrite lookup_insert_eq. eauto.
  - intros p text Hp.
    destruct (decide (jf = p)) as [->|Hj].
    + rewrite lookup_insert_eq. f_equal.
      destruct (decide (lf = p)) as [->|Hl].
      * rewrite lookup_insert_eq, Hp. reflexivity.
      * rewrite lookup_insert_ne, Hp by exact Hl. reflexivity.
    + rewrite lookup_insert_ne by exact Hj.
      destruct (decide (lf = p)) as [->|Hl].
      * rewrite lookup_insert_eq, Hp. reflexivity.
      * rewrite lookup_insert_ne by exact Hl. exact Hp.
  - intros p Hp.
    destruct (decide (jf = p)) as [->|Hj]; [now right; left|].
    destruct (decide (lf = p)) as [->|Hl]; [now left|].
    rewrite !lookup_insert_ne in Hp by assumption. now right; right.
Qed.

Lemma logger_init_creates_log_files_witness :
  let r := WorkflowLogger.__init__ "wf" "logs" demo_world in
  (exists self, outcome r = Returned self
                /\ WorkflowLogger.name self = "wf"
                /\ WorkflowLogger.log_dir self = "logs")
  /\ emitted r = []
  /\ directories (world r) = {[ "logs" ]} ∪ directories demo_world
  /\ is_Some (files (world r) !! log_file "wf" "logs" demo_world)
  /\ is_Some (files (world r) !! json_file "wf" "logs" demo_world)
  /\ (forall p text, files demo_world !! p = Some text ->
                     files (world r) !! p = Some text)
  /\ (forall p, is_Some (files (world r) !! p) ->
                p = log_file "wf" "logs" demo_world
                \/ p = json_file "wf" "logs" demo_world
                \/ is_Some (files demo_world !! p)).
Proof.
  apply (logger_init_creates_log_files "wf" "logs" demo_world).
  - reflexivity.
  - intros q Hq. vm_compute in Hq. discriminate Hq.
  - vm_compute. reflexivity.
  - vm_compute. reflexivity.
  - apply not_elem_of_empty.
  - apply not_elem_of_empty.
Defined.

(** X3. Constructing a logger fails with [FileExistsError] when a regular
    file sits at the log directory, and then nothing has happened: the world
    is untouched and no record is written. *)
Theorem logger_init_blocked_by_file (name log_dir text : string) (w : World) :
  files w !! log_dir = Some text ->
  WorkflowLogger.__init__ name log_dir w
  = {| outcome :=
         Raised {| exn_class := ExceptionClass "FileExistsError";
                   exn_str := "[Errno 17] File exists: '" ++ log_dir ++ "'" |};
       world := w; emitted := [] |}.
Proof.
  intros Hfile. rewrite logger_init_run, path_mkdir_file; [reflexivity|].
  unfold is_file. apply bool_decide_eq_true_2. eauto.
Qed.

Lemma logger_init_blocked_by_file_witness :
  WorkflowLogger.__init__ "wf" "logs" cluttered_world
  = {| outcome :=
         Raised {| exn_class := ExceptionClass "FileExistsError";
                   exn_str := "[Errno 17] File exists: '" ++ "logs" ++ "'" |};
       world := cluttered_world; emitted := [] |}.
Proof.
  apply (logger_init_blocked_by_file "wf" "logs" "notes" cluttered_world).
  reflexivity.
Defined.

(** ** Which sink sees what *)

Section DebugRouting.

Lemma filter_admits_INFO (h : Logging.Handler) (rs : list LogRecord) :
  Logging.handler_level h = INFO ->
  List.filter (admits h) rs
  = List.filter (fun r => negb (is_debug_level r)) rs.
Proof.
  intros Hl. apply List.filter_ext. intros r.
  unfold admits, is_debug_level. rewrite Hl. now destruct (rec_level r).
Qed.

Lemma filter_admits_DEBUG (h : Logging.Handler) (rs : list LogRecord) :
  Logging.handler_level h = DEBUG -> List.filter (admits h) rs = rs.
Proof.
  intros Hl. induction rs as [|r rs IH]; [reflexivity|].
  cbn [List.filter]. rewrite IH. unfold admits. rewrite Hl.
  now destruct (rec_level r).
Qed.

End DebugRouting.

(** X4. After any sequence of calls on a constructed logger, the detailed
    log file holds the record of every call, while the console and the JSON
    file hold the same records as each other: those of all calls but the
    [debug] ones. A debug record is written to the detailed file only. *)
Theorem debug_reaches_only_the_log_file
    (name log_dir : string) (w : World) (self : WorkflowLogger.t)
    (cs : list log_call) (w' : World) :
  outcome (WorkflowLogger.__init__ name log_dir w) = Returned self ->
  let recs := map (record_of self) cs in
  let lg := Logging.deliver (WorkflowLogger.logger self)
              (emitted (perform_all self cs w')) in
  map Logging.written (Logging.handlers lg)
  = [ List.filter (fun r => negb (is_debug_level r)) recs;
      recs;
      List.filter (fun r => negb (is_debug_level r)) recs ].
Proof.
  intros Hinit recs lg.
  destruct (init_logger _ _ _ _ Hinit) as (lf & jf & Hlg).
  destruct (emitted_perform_all self cs w') as [Hem _].
  subst lg recs. rewrite deliver_handlers, Hem.
  rewrite accepts_all_records by now rewrite Hlg.
  rewrite Hlg. cbn [Logging.handlers map].
  rewrite !offer_all_written. cbn [Logging.written app].
  repeat match goal with
         | |- context [List.filter (admits ?h) ?rs] =>
             first [ rewrite (filter_admits_INFO h rs) by reflexivity
                   | rewrite (filter_admits_DEBUG h rs) by reflexivity ]
         end.
  reflexivity.
Qed.

Lemma debug_reaches_only_the_log_file_witness :
  let recs := map (record_of demo_logger) demo_calls in
  let lg := Logging.deliver (WorkflowLogger.logger demo_logger)
              (emitted (perform_all demo_logger demo_calls demo_world)) in
  map Logging.written (Logging.handlers lg)
  = [ List.filter (fun r => negb (is_debug_level r)) recs;
      recs;
      List.filter (fun r => negb (is_debug_level r)) recs ].
Proof.
  apply (debug_reaches_only_the_log_file "wf" "logs" demo_world demo_logger
           demo_calls demo_world).
  vm_compute. reflexivity.
Defined.

(** ** Nested timers *)

(** X5. Timers nest like brackets. A timer around a timer around a body
    writes both start records, outer first, then the records of the body,
    then both end records, inner first: two success records when the body
    returns, two failure records when it raises an [Exception]; when it
    raises something else, no end record at all. The outcome is that of the
    body. *)
Theorem nested_timers_bracket
    {A : Type} (self : WorkflowLogger.t) (outer inner : string)
    (body : M A) (w : World) :
  let rb := body (tick (tick w)) in
  let t_outer := wall_time w (clock_reads w) in
  let t_inner := wall_time w (S (clock_reads w)) in
  let t_end := wall_time (world rb) (clock_reads (world rb)) in
  let t_end' := wall_time (world rb) (S (clock_reads (world rb))) in
  let r := WorkflowLogger.timer self outer
             (WorkflowLogger.timer self inner body) w in
  outcome r = outcome rb
  /\ emitted r
     = ([start_record self outer; start_record self inner]
        ++ emitted rb
        ++ match outcome rb with
           | Returned _ =>
               [ success_record self inner (t_end - t_inner);
                 success_record self outer (t_end' - t_outer) ]
           | Raised e =>
               if is_Exception e
               then [ failure_record self inner (t_end - t_inner) e;
                      failure_record self outer (t_end' - t_outer) e ]
               else []
           end)%list.
Proof.
  cbv zeta. rewrite timer_run. cbv zeta. rewrite timer_run. cbv zeta.
  cbn [tick clock_reads wall_time].
  destruct (body (tick (tick w))) as [[a|e] w1 t1]; cbn [outcome world emitted].
  - cbn [tick clock_reads wall_time]. split; [reflexivity|].
    cbn [app]. now rewrite <- app_assoc.
  - destruct (is_Exception e) eqn:He; cbn [outcome world emitted]; rewrite He;
      cbn [tick clock_reads wall_time]; (split; [reflexivity|]); cbn [app].
    + now rewrite <- app_assoc.
    + now rewrite app_nil_r.
Qed.

(** ** More on the health check *)


Lemma round_float_1_close (q : Q) :
  (q - (1 # 20) <= Py.round_float q 1 <= q + (1 # 20))%Q.
Proof.
  unfold Py.round_float. rewrite Qred_correct.
  change (10 ^ Z.of_nat 1) with 10. change (Z.to_pos 10) with 10%positive.
  pose proof (round_half_even_close (q * inject_Z 10)) as [Hlo Hhi].
  set (r := Py.round_half_even (q * inject_Z 10)) in *.
  destruct q as [n d].
  unfold Qle, Qminus, Qplus, Qopp, Qmult, inject_Z in *. cbn [Qnum Qden] in *.
  split; nia.
Qed.

Lemma round_float_1_percentage (q : Q) :
  (0 <= q <= 100)%Q -> (0 <= Py.round_float q 1 <= 100)%Q.
Proof.
  intros [Hlo Hhi]. unfold Py.round_float. rewrite Qred_correct.
  change (10 ^ Z.of_nat 1) with 10. change (Z.to_pos 10) with 10%positive.
  assert (0 <= q * inject_Z 10)%Q as Hq.
  { apply Qmult_le_0_compat; [exact Hlo | discriminate]. }
  pose proof (round_half_even_nonneg _ Hq) as Hr.
  pose proof (round_half_even_close (q * inject_Z 10)) as [_ Hup].
  set (r := Py.round_half_even (q * inject_Z 10)) in *.
  destruct q as [n d].
  unfold Qle, Qminus, Qplus, Qopp, Qmult, inject_Z in *. cbn [Qnum Qden] in *.
  split; nia.
Qed.

(** ** Double rounding in the disk check *)

Section Doubles.

Local Open Scope Q_scope.

Lemma two_nonzero : ~ 2 == 0.
Proof. discriminate. Qed.

Lemma pow2_pos (k : Z) : 0 < 2 ^ k.
Proof. apply Qpower_0_lt. reflexivity. Qed.

Lemma pow2_succ (k : Z) : 2 ^ (k + 1) == 2 * 2 ^ k.
Proof. rewrite Qpower_plus by exact two_nonzero. rewrite Qpower_1_r. ring. Qed.

Lemma pow2_inject (k : Z) : (0 <= k)%Z -> inject_Z (2 ^ k) == 2 ^ k.
Proof. intros Hk. now rewrite Zpower_Qpower. Qed.

(** The binade brackets its argument. *)
Lemma binade_spec (q : Q) :
  0 < q -> 2 ^ Py.binade q <= q < 2 ^ (Py.binade q + 1).
Proof.
  intros Hq. destruct q as [n d]. unfold Qlt in Hq. cbn [Qnum Qden] in Hq.
  assert (0 < n)%Z as Hn by lia.
  unfold Py.binade. cbn [Qnum Qden]. rewrite (Z.abs_eq n) by lia.
  assert (Qabs (n # d) = (n # d)) as ->.
  { unfold Qabs. now rewrite (Z.abs_eq n) by lia. }
  set (a := Z.log2 n). set (c := Z.log2 (Zpos d)).
  destruct (Z.log2_spec n Hn) as [Hn1 Hn2]. fold a in Hn1, Hn2.
  destruct (Z.log2_spec (Zpos d) eq_refl) as [Hd1 Hd2]. fold c in Hd1, Hd2.
  assert (0 <= a)%Z as Ha by apply Z.log2_nonneg.
  assert (0 <= c)%Z as Hc by apply Z.log2_nonneg.
  assert (n # d == inject_Z n / inject_Z (Zpos d)) as Hnd
    by (rewrite Qmake_Qdiv; reflexivity).
  assert (0 < inject_Z (Zpos d)) as Hdpos by reflexivity.
  assert (2 ^ a <= inject_Z n) as Qn1.
  { rewrite <- pow2_inject by exact Ha. now rewrite <- Zle_Qle. }
  assert (inject_Z n < 2 ^ (a + 1)) as Qn2.
  { rewrite <- pow2_inject by lia. rewrite <- Zlt_Qlt. exact Hn2. }
  assert (2 ^ c <= inject_Z (Zpos d)) as Qd1.
  { rewrite <- pow2_inject by exact Hc. now rewrite <- Zle_Qle. }
  assert (inject_Z (Zpos d) < 2 ^ (c + 1)) as Qd2.
  { rewrite <- pow2_inject by lia. rewrite <- Zlt_Qlt. exact Hd2. }
  (* 2^(a-c-1) < n/d < 2^(a-c+1) *)
  assert (2 ^ (a - c - 1) * inject_Z (Zpos d) < inject_Z n) as Hlow.
  { replace (a - c - 1)%Z with (a - (c + 1))%Z by lia.
    rewrite Qpower_minus by exact two_nonzero.
    pose proof (pow2_pos (c + 1)) as Hp. pose proof (pow2_pos a) as Hpa.
    assert (inject_Z (Zpos d) / 2 ^ (c + 1) < 1) as Ht
      by (apply Qlt_shift_div_r; [exact Hp|lra]).
    assert (2 ^ a / 2 ^ (c + 1) * inject_Z (Zpos d)
            == 2 ^ a * (inject_Z (Zpos d) / 2 ^ (c + 1))) as ->
      by (field; apply Qpower_not_0, two_nonzero).
    set (t := inject_Z (Zpos d) / 2 ^ (c + 1)) in *. nra. }
  assert (inject_Z n < 2 ^ (a - c + 1) * inject_Z (Zpos d)) as Hhigh.
  { replace (a - c + 1)%Z with (a + 1 - c)%Z by lia.
    rewrite Qpower_minus by exact two_nonzero.
    pose proof (pow2_pos c) as Hp. pose proof (pow2_pos (a + 1)) as Hpa.
    assert (1 <= inject_Z (Zpos d) / 2 ^ c) as Ht
      by (apply Qle_shift_div_l; [exact Hp|lra]).
    assert (2 ^ (a + 1) / 2 ^ c * inject_Z (Zpos d)
            == 2 ^ (a + 1) * (inject_Z (Zpos d) / 2 ^ c)) as ->
      by (field; apply Qpower_not_0, two_nonzero).
    set (t := inject_Z (Zpos d) / 2 ^ c) in *. nra. }
  destruct (Qle_bool (2 ^ (a - c)) (n # d)) eqn:Htest.
  - apply Qle_bool_iff in Htest. split; [exact Htest|].
    rewrite Hnd. apply Qlt_shift_div_r; assumption.
  - assert (~ 2 ^ (a - c) <= n # d) as Hnot.
    { intros H. apply Qle_bool_iff in H. congruence. }
    apply Qnot_le_lt in Hnot. split.
    + rewrite Hnd. apply Qle_shift_div_l; [exact Hdpos|].
      apply Qlt_le_weak. exact Hlow.
    + replace (a - c - 1 + 1)%Z with (a - c)%Z by lia. exact Hnot.
Qed.

Lemma binade_unique (q : Q) (e : Z) :
  2 ^ e <= q < 2 ^ (e + 1) -> Py.binade q = e.
Proof.
  intros [Hlo Hhi].
  assert (0 < q) as Hq by (eapply Qlt_le_trans; [apply (pow2_pos e)|exact Hlo]).
  destruct (binade_spec q Hq) as [Blo Bhi].
  assert (2 ^ e < 2 ^ (Py.binade q + 1)) as H1
    by (eapply Qle_lt_trans; eassumption).
  assert (2 ^ Py.binade q < 2 ^ (e + 1)) as H2
    by (eapply Qle_lt_trans; eassumption).
  apply Qpower_lt_compat_l_inv in H1; [|reflexivity].
  apply Qpower_lt_compat_l_inv in H2; [|reflexivity].
  lia.
Qed.

Lemma binade_mono (x y : Q) :
  0 < x -> x <= y -> (Py.binade x <= Py.binade y)%Z.
Proof.
  intros Hx Hxy.
  assert (0 < y) as Hy by (eapply Qlt_le_trans; eassumption).
  destruct (binade_spec x Hx) as [Xlo _].
  destruct (binade_spec y Hy) as [_ Yhi].
  assert (2 ^ Py.binade x < 2 ^ (Py.binade y + 1)) as H.
  { eapply Qle_lt_trans; [exact Xlo|]. eapply Qle_lt_trans; eassumption. }
  apply Qpower_lt_compat_l_inv in H; [|reflexivity]. lia.
Qed.

Lemma to_double_eq (x : Q) :
  0 < x ->
  Py.to_double x
  == inject_Z (Py.round_half_even (x / 2 ^ Py.quantum x)) * 2 ^ Py.quantum x.
Proof.
  intros Hx. unfold Py.to_double.
  destruct (Z.eqb_spec (Qnum x) 0) as [H0|_].
  - unfold Qlt in Hx. cbn in Hx. lia.
  - apply Qred_correct.
Qed.

Lemma round_half_even_le (z : Q) (m : Z) :
  z <= inject_Z m -> (Py.round_half_even z <= m)%Z.
Proof.
  intros Hz. destruct (round_half_even_close z) as [_ Hhi].
  assert (inject_Z (Py.round_half_even z) <= inject_Z m + (1 # 2)) as H by lra.
  unfold Qle, Qplus, inject_Z in H. cbn in H. lia.
Qed.

Lemma round_half_even_ge (z : Q) (m : Z) :
  inject_Z m <= z -> (m <= Py.round_half_even z)%Z.
Proof.
  intros Hz. destruct (round_half_even_close z) as [Hlo _].
  assert (inject_Z m - (1 # 2) <= inject_Z (Py.round_half_even z)) as H by lra.
  unfold Qle, Qminus, Qplus, Qopp, inject_Z in H. cbn in H. lia.
Qed.

(** A multiple of [2 ^ k] is a multiple of every smaller power. *)
Lemma multiple_of_smaller (m k j : Z) :
  (j <= k)%Z ->
  inject_Z m * 2 ^ k / 2 ^ j == inject_Z (m * 2 ^ (k - j)).
Proof.
  intros Hjk. rewrite inject_Z_mult, pow2_inject by lia.
  rewrite Qpower_minus by exact two_nonzero.
  field. apply Qpower_not_0. exact two_nonzero.
Qed.

(** Rounding does not cross a double: below. *)
Lemma to_double_le (x b : Q) (m : Z) :
  0 < x -> x <= b -> b == inject_Z m * 2 ^ Py.quantum b ->
  Py.to_double x <= b.
Proof.
  intros Hx Hxb Hb. rewrite (to_double_eq x Hx).
  assert (Py.quantum x <= Py.quantum b)%Z as Hk.
  { unfold Py.quantum. pose proof (binade_mono x b Hx Hxb). lia. }
  pose proof (pow2_pos (Py.quantum x)) as Hp.
  assert (x / 2 ^ Py.quantum x
          <= inject_Z (m * 2 ^ (Py.quantum b - Py.quantum x))) as Hz.
  { rewrite <- (multiple_of_smaller m _ _ Hk), <- Hb.
    apply Qle_shift_div_l; [exact Hp|].
    unfold Qdiv. rewrite <- Qmult_assoc, (Qmult_comm (/ _)), Qmult_inv_r, Qmult_1_r;
      [exact Hxb|]. apply Qpower_not_0, two_nonzero. }
  apply round_half_even_le in Hz. rewrite Zle_Qle in Hz.
  assert (inject_Z (m * 2 ^ (Py.quantum b - Py.quantum x)) * 2 ^ Py.quantum x
          == b) as Heq.
  { rewrite <- (multiple_of_smaller m _ _ Hk), <- Hb. field.
    apply Qpower_not_0, two_nonzero. }
  rewrite <- Heq.
  apply Qmult_le_compat_r; [exact Hz|]. apply Qlt_le_weak, Hp.
Qed.

(** Rounding does not cross a double: above. *)
Lemma to_double_ge (x b : Q) (m : Z) :
  0 < b -> b <= x -> b == inject_Z m * 2 ^ Py.quantum b ->
  b <= Py.to_double x.
Proof.
  intros Hb0 Hbx Hb.
  assert (0 < x) as Hx by (eapply Qlt_le_trans; eassumption).
  rewrite (to_double_eq x Hx).
  pose proof (pow2_pos (Py.quantum x)) as Hp.
  assert (Py.quantum b <= Py.quantum x)%Z as Hk.
  { unfold Py.quantum. pose proof (binade_mono b x Hb0 Hbx). lia. }
  destruct (Z.eq_dec (Py.quantum b) (Py.quantum x)) as [Heq|Hne].
  - assert (inject_Z m <= x / 2 ^ Py.quantum x) as Hz.
    { apply Qle_shift_div_l; [exact Hp|]. rewrite <- Heq, <- Hb. exact Hbx. }
    apply round_half_even_ge in Hz. rewrite Zle_Qle in Hz.
    apply Qle_trans with (inject_Z m * 2 ^ Py.quantum x).
    + rewrite <- Heq, <- Hb. apply Qle_refl.
    + apply Qmult_le_compat_r; [exact Hz|]. apply Qlt_le_weak, Hp.
  - assert (Py.binade b < Py.binade x /\ Py.quantum x = Py.binade x - 52)%Z
      as [Hbin Hq] by (unfold Py.quantum in *; lia).
    destruct (binade_spec x Hx) as [Xlo _].
    destruct (binade_spec b Hb0) as [_ Bhi].
    assert (inject_Z (2 ^ 52) <= x / 2 ^ Py.quantum x) as Hz.
    { apply Qle_shift_div_l; [exact Hp|].
      rewrite pow2_inject by lia. rewrite <- Qpower_plus by exact two_nonzero.
      rewrite Hq. replace (52 + (Py.binade x - 52))%Z with (Py.binade x) by lia.
      exact Xlo. }
    apply round_half_even_ge in Hz. rewrite Zle_Qle in Hz.
    apply Qle_trans with (2 ^ Py.binade x).
    + apply Qlt_le_weak. eapply Qlt_le_trans; [exact Bhi|].
      apply Qpower_le_compat_l; [lia|discriminate].
    + assert (2 ^ Py.binade x == inject_Z (2 ^ 52) * 2 ^ Py.quantum x) as ->.
      { rewrite pow2_inject by lia. rewrite <- Qpower_plus by exact two_nonzero.
        rewrite Hq.
        now replace (52 + (Py.binade x - 52))%Z with (Py.binade x) by lia. }
      apply Qmult_le_compat_r; [exact Hz|]. apply Qlt_le_weak, Hp.
Qed.

Lemma to_double_zero (x : Q) : x == 0 -> Py.to_double x = 0.
Proof.
  intros Hx. unfold Py.to_double, Qeq in *. cbn in Hx.
  destruct (Z.eqb_spec (Qnum x) 0); [reflexivity|lia].
Qed.

Lemma to_double_nonneg (x : Q) : 0 <= x -> 0 <= Py.to_double x.
Proof.
  intros Hx. destruct (Qeq_dec x 0) as [H0|Hne].
  - rewrite (to_double_zero x H0). apply Qle_refl.
  - assert (0 < x) as Hpos.
    { apply Qnot_le_lt. intros Hle. apply Hne. now apply Qle_antisym. }
    rewrite (to_double_eq x Hpos).
    pose proof (pow2_pos (Py.quantum x)) as Hp.
    apply Qmult_le_0_compat; [|apply Qlt_le_weak, Hp].
    change 0 with (inject_Z 0). rewrite <- Zle_Qle.
    apply round_half_even_ge. change (inject_Z 0) with 0.
    apply Qle_shift_div_l; [exact Hp|]. lra.
Qed.

(** Rounding a non-negative number does not cross a positive double. *)
Lemma to_double_upper (x b : Q) (m : Z) :
  0 <= x -> x <= b -> 0 < b -> b == inject_Z m * 2 ^ Py.quantum b ->
  Py.to_double x <= b.
Proof.
  intros Hx Hxb Hb0 Hb. destruct (Qeq_dec x 0) as [H0|Hne].
  - rewrite (to_double_zero x H0). apply Qlt_le_weak, Hb0.
  - apply (to_double_le x b m); [|exact Hxb|exact Hb].
    apply Qnot_le_lt. intros Hle. apply Hne. now apply Qle_antisym.
Qed.

Lemma round_half_even_lt (z : Q) (m : Z) :
  z < inject_Z m + (1 # 2) -> (Py.round_half_even z <= m)%Z.
Proof.
  intros Hz. destruct (round_half_even_close z) as [_ Hhi].
  assert (inject_Z (Py.round_half_even z) < inject_Z m + 1) as H by lra.
  unfold Qlt, Qplus, inject_Z in H. cbn in H. lia.
Qed.

(** The error of rounding is at most half the quantum. *)
Lemma to_double_close (x : Q) (e : Z) :
  0 < x -> x < 2 ^ (e + 1) -> (-1022 <= e)%Z ->
  x - 2 ^ (e - 53) <= Py.to_double x <= x + 2 ^ (e - 53).
Proof.
  intros Hx Hxe He. rewrite (to_double_eq x Hx).
  destruct (binade_spec x Hx) as [Blo _].
  assert (Py.quantum x <= e - 52)%Z as Hk.
  { assert (2 ^ Py.binade x < 2 ^ (e + 1)) as H
      by (eapply Qle_lt_trans; eassumption).
    apply Qpower_lt_compat_l_inv in H; [|reflexivity].
    unfold Py.quantum. lia. }
  pose proof (pow2_pos (Py.quantum x)) as Hp.
  assert (2 ^ Py.quantum x <= 2 * 2 ^ (e - 53)) as Hq.
  { rewrite <- pow2_succ. replace (e - 53 + 1)%Z with (e - 52)%Z by lia.
    apply Qpower_le_compat_l; [exact Hk|discriminate]. }
  destruct (round_half_even_close (x / 2 ^ Py.quantum x)) as [Hlo Hhi].
  set (r := inject_Z (Py.round_half_even (x / 2 ^ Py.quantum x))) in *.
  assert (x == x / 2 ^ Py.quantum x * 2 ^ Py.quantum x) as Hxz
    by (field; apply Qpower_not_0, two_nonzero).
  set (z := x / 2 ^ Py.quantum x) in *.
  set (u := 2 ^ Py.quantum x) in *. set (v := 2 ^ (e - 53)) in *.
  rewrite Hxz. split; nra.
Qed.

(** The free percentage, as the disk check computes it. *)
Lemma disk_percentage (total free : Z) :
  (0 < total)%Z -> (0 <= free <= total)%Z ->
  let exact := inject_Z (100 * free) / inject_Z total in
  let free_percent :=
    Py.float_mul (Py.float_div free total) (inject_Z 100) in
  0 <= free_percent <= 100
  /\ exact - (1 # 1000000000000) <= free_percent <= exact + (1 # 1000000000000)
  /\ ((10 * free <= total)%Z -> free_percent <= 10)
  /\ ((total * (10 ^ 15 + 1) <= free * 10 ^ 16)%Z -> 10 < free_percent).
Proof.
  intros Htotal Hfree. cbv zeta. unfold Py.float_mul, Py.float_div.
  set (r := inject_Z free / inject_Z total).
  assert (0 < inject_Z total) as Ht by (rewrite <- (Zlt_Qlt 0); exact Htotal).
  assert (0 <= inject_Z free) as Hf0 by (rewrite <- (Zle_Qle 0); lia).
  assert (inject_Z free <= inject_Z total) as Hft by (rewrite <- Zle_Qle; lia).
  assert (0 <= r) as Hr0.
  { apply Qle_shift_div_l; [exact Ht|]. lra. }
  assert (r <= 1) as Hr1.
  { apply Qle_shift_div_r; [exact Ht|]. lra. }
  assert (inject_Z (100 * free) / inject_Z total == r * 100) as Hexact.
  { unfold r. rewrite inject_Z_mult. field. lra. }
  rewrite Hexact.
  set (ratio := Py.to_double r).
  assert (0 <= ratio) as Hq0 by (apply to_double_nonneg; exact Hr0).
  assert (ratio <= 1) as Hq1.
  { apply (to_double_upper r 1 (2 ^ 52)); [exact Hr0|exact Hr1|reflexivity|].
    vm_compute. reflexivity. }
  assert (r - 2 ^ (-53) <= ratio <= r + 2 ^ (-53)) as Hqc.
  { destruct (Qeq_dec r 0) as [H0|Hne].
    - unfold ratio. rewrite (to_double_zero r H0), H0.
      split; vm_compute; discriminate.
    - apply (to_double_close r 0); [|vm_compute (2 ^ _); lra|lia].
      apply Qnot_le_lt. intros Hle. apply Hne. now apply Qle_antisym. }
  set (y := ratio * inject_Z 100).
  assert (0 <= y <= 100) as Hy by (unfold y; change (inject_Z 100) with 100; lra).
  assert (y - 2 ^ (-47) <= Py.to_double y <= y + 2 ^ (-47)) as Hyc.
  { destruct (Qeq_dec y 0) as [H0|Hne].
    - rewrite (to_double_zero y H0), H0. split; vm_compute; discriminate.
    - apply (to_double_close y 6); [|vm_compute (2 ^ _); lra|lia].
      apply Qnot_le_lt. intros Hle. apply Hne. apply Qle_antisym; lra. }
  split; [split|split; [|split]].
  - apply to_double_nonneg. lra.
  - apply (to_double_upper y 100 (100 * 2 ^ 46)); [lra|lra|reflexivity|].
    vm_compute. reflexivity.
  - assert (2 ^ (-53) == 1 # 9007199254740992) as H54 by reflexivity.
    assert (2 ^ (-47) == 1 # 140737488355328) as H47 by reflexivity.
    unfold y in *. change (inject_Z 100) with 100 in *.
    rewrite H54 in Hqc. rewrite H47 in Hyc. split; lra.
  - intros Hlow.
    assert (r <= 1 # 10) as Hr.
    { apply Qle_shift_div_r; [exact Ht|].
      assert (inject_Z (10 * free) <= inject_Z total) as H
        by (rewrite <- Zle_Qle; exact Hlow).
      rewrite inject_Z_mult in H. change (inject_Z 10) with 10 in H. lra. }
    assert (ratio <= 7205759403792794 # 72057594037927936) as Hd0.
    { apply (to_double_upper r _ 7205759403792794);
        [exact Hr0| |reflexivity|vm_compute; reflexivity].
      eapply Qle_trans; [exact Hr|]. vm_compute. discriminate. }
    destruct (Qlt_le_dec 10 y) as [Hbig|Hsmall].
    + assert (0 < y) as Hypos by lra.
      assert (Py.binade y = 3%Z) as Hb.
      { apply binade_unique. unfold y in *. change (inject_Z 100) with 100 in *.
        change (2 ^ 3) with 8. change (2 ^ (3 + 1)) with 16. split; lra. }
      rewrite (to_double_eq y Hypos). unfold Py.quantum. rewrite Hb.
      change (Z.max 3 (-1022) - 52)%Z with (-49)%Z.
      assert (Py.round_half_even (y / 2 ^ (-49)) <= 10 * 2 ^ 49)%Z as Hround.
      { apply round_half_even_lt.
        change (2 ^ (-49)) with (1 # 562949953421312).
        change (inject_Z (10 * 2 ^ 49)) with 5629499534213120.
        assert (y / (1 # 562949953421312) == y * 562949953421312) as ->
          by (field; discriminate).
        unfold y in *. change (inject_Z 100) with 100 in *. lra. }
      rewrite Zle_Qle in Hround.
      assert (inject_Z (10 * 2 ^ 49) * 2 ^ (-49) == 10) as Hten by reflexivity.
      rewrite <- Hten.
      apply Qmult_le_compat_r; [exact Hround|]. apply Qlt_le_weak, pow2_pos.
    + apply (to_double_upper y 10 (10 * 2 ^ 49)); [lra|exact Hsmall|reflexivity|].
      vm_compute. reflexivity.
  - intros Hhigh.
    assert ((10 ^ 15 + 1 # 10 ^ 16) <= r) as Hr.
    { apply Qle_shift_div_l; [exact Ht|].
      assert (inject_Z (total * (10 ^ 15 + 1)) <= inject_Z (free * 10 ^ 16)) as H
        by (rewrite <- Zle_Qle; exact Hhigh).
      rewrite !inject_Z_mult in H.
      change (inject_Z (10 ^ 15 + 1)) with 1000000000000001 in H.
      change (inject_Z (10 ^ 16)) with 10000000000000000 in H.
      change (10 ^ 15 + 1 # 10 ^ 16) with (1000000000000001 # 10000000000000000).
      lra. }
    assert ((7205759403792795 # 72057594037927936) <= ratio) as Hd1.
    { apply (to_double_ge r _ 7205759403792795);
        [reflexivity| |vm_compute; reflexivity].
      eapply Qle_trans; [|exact Hr]. vm_compute. discriminate. }
    assert ((5629499534213121 # 562949953421312) <= Py.to_double y) as Hfp.
    { apply (to_double_ge y _ 5629499534213121);
        [reflexivity| |vm_compute; reflexivity].
      unfold y. change (inject_Z 100) with 100.
      assert ((5629499534213121 # 562949953421312) <= (7205759403792795 # 72057594037927936) * 100)
        as H by (vm_compute; discriminate).
      lra. }
    eapply Qlt_le_trans; [|exact Hfp]. reflexivity.
Qed.

End Doubles.

(** X7. For a disk with a positive total and a free space between zero and
    the total, the disk check of a returned snapshot is [warning] whenever
    ten times the free space does not exceed the total, and [healthy]
    whenever the free fraction is at least 0.1000000000000001; in the narrow
    band between the two, the rounding of the quotient and of the product
    to doubles decides. The percentage it reports lies between 0 and 100
    and within a twentieth of a point, and a rounding error below
    [10 ^ -12], of [100 * free / total]. *)
Theorem disk_space_check
    (self : WorkflowMonitor.t) (w : World) (total used free : Z)
    (health : list (string * Py.value)) :
  disk_usage w = inr (total, used, free) ->
  0 < total ->
  0 <= free <= total ->
  outcome (WorkflowMonitor.health_check self w) = Returned health ->
  exists checks status free_percent,
    Py.dict_get health "checks" = Some (Py.VDict checks)
    /\ Py.dict_get checks "disk_space"
       = Some (Py.VDict [ ("status", Py.VStr status);
                          ("free_percent", Py.VNum (Py.NFloat free_percent)) ])
    /\ (status = "healthy" \/ status = "warning")
    /\ (10 * free <= total -> status = "warning")
    /\ (total * (10 ^ 15 + 1) <= free * 10 ^ 16 -> status = "healthy")
    /\ (0 <= free_percent <= 100)%Q
    /\ (inject_Z (100 * free) / inject_Z total
          - ((1 # 20) + (1 # 1000000000000)) <= free_percent
        <= inject_Z (100 * free) / inject_Z total
           + ((1 # 20) + (1 # 1000000000000)))%Q.
Proof.
  intros Hdisk Htotal Hfree. rewrite health_check_run, Hdisk.
  destruct (Z.eqb_spec total 0) as [|_]; [lia|].
  destruct (disk_percentage total free Htotal Hfree)
    as (Hrange & Hclose & Hlow & Hhigh).
  cbv zeta in Hrange, Hclose, Hlow, Hhigh.
  set (fp := Py.float_mul (Py.float_div free total) (inject_Z 100)) in *.
  intros H.
  exists
    [ ("disk_space",
       Py.VDict
         [ ("status",
            Py.VStr (if negb (Qle_bool fp (inject_Z 10))
                     then "healthy" else "warning"));
           ("free_percent", Py.VNum (Py.NFloat (Py.round_float fp 1))) ]);
      ("logs_directory",
       Py.VDict
         [ ("status", Py.VStr (if path_exists w "logs" then "healthy" else "warning"));
           ("exists", Py.VBool (path_exists w "logs")) ]);
      ("aws_configured",
       Py.VDict
         [ ("status", Py.VStr (if proc_succeeds (aws_probe w) then "healthy"
                               else "degraded"));
           ("configured", Py.VBool (proc_succeeds (aws_probe w))) ]) ],
    (if negb (Qle_bool fp (inject_Z 10)) then "healthy" else "warning"),
    (Py.round_float fp 1).
  split; [|split; [reflexivity|split; [|split; [|split; [|split]]]]].
  - destruct (aws_probe w) eqn:Hp; cbv zeta in H; cbn [outcome] in H;
      try discriminate H; injection H as <-; reflexivity.
  - destruct (Qle_bool fp (inject_Z 10)); [now right|now left].
  - intros Hle. apply Hlow, Qle_bool_iff in Hle.
    change (inject_Z 10) with 10%Q. now rewrite Hle.
  - intros Hge. apply Hhigh in Hge.
    destruct (Qle_bool fp (inject_Z 10)) eqn:Hb; [|reflexivity].
    apply Qle_bool_iff in Hb. change (inject_Z 10) with 10%Q in Hb. lra.
  - apply round_float_1_percentage. exact Hrange.
  - pose proof (round_float_1_close fp). lra.
Qed.

Lemma disk_space_check_witness :
  exists checks status free_percent,
    Py.dict_get
      (snapshot "2024-03-01T12:00:03" (Py.VStr "999") "healthy" 60 false false)
      "checks" = Some (Py.VDict checks)
    /\ Py.dict_get checks "disk_space"
       = Some (Py.VDict [ ("status", Py.VStr status);
                          ("free_percent", Py.VNum (Py.NFloat free_percent)) ])
    /\ (status = "healthy" \/ status = "warning")
    /\ (10 * 60 <= 100 -> status = "warning")
    /\ (100 * (10 ^ 15 + 1) <= 60 * 10 ^ 16 -> status = "healthy")
    /\ (0 <= free_percent <= 100)%Q
    /\ (inject_Z (100 * 60) / inject_Z 100
          - ((1 # 20) + (1 # 1000000000000)) <= free_percent
        <= inject_Z (100 * 60) / inject_Z 100
           + ((1 # 20) + (1 # 1000000000000)))%Q.
Proof.
  apply (disk_space_check demo_monitor demo_world 100 40 60).
  - reflexivity.
  - lia.
  - lia.
  - vm_compute. reflexivity.
Defined.

(** ** Thresholds *)

Lemma thresholds_values (operation_name : string) (t : Z) :
  WorkflowMonitor.thresholds !! operation_name = Some t ->
  t = 30 \/ t = 60 \/ t = 300.
Proof.
  unfold WorkflowMonitor.thresholds. intros H.
  apply elem_of_list_to_map_2 in H.
  rewrite !elem_of_cons, elem_of_nil in H.
  destruct H as [H|[H|[H|[H|[]]]]]; injection H as _ ->; auto.
Qed.

(** X8. Whatever the name of the operation, the threshold lies between 30
    and 300 seconds: a duration of at most 30 seconds never draws the
    threshold warning, and a duration above 300 seconds always draws it. *)
Theorem threshold_warning_bounds
    (self : WorkflowMonitor.t) (operation_name : string)
    (duration : Py.number) (success : bool) (w : World) :
  let r := WorkflowMonitor.monitor_operation self operation_name duration
             success w in
  ((Py.number_value duration <= 30)%Q ->
   List.filter is_warning_level (emitted r) = [])
  /\ ((300 < Py.number_value duration)%Q ->
      length (List.filter is_warning_level (emitted r)) = 1%nat).
Proof.
  cbv zeta. rewrite monitor_operation_run. cbv zeta. cbn [emitted].
  assert (30 <= default 120 (WorkflowMonitor.thresholds !! operation_name) <= 300)
    as Hrange.
  { destruct (WorkflowMonitor.thresholds !! operation_name) as [t|] eqn:Ht;
      cbn; [|lia].
    destruct (thresholds_values _ _ Ht) as [->|[->| ->]]; lia. }
  set (threshold := default 120 (WorkflowMonitor.thresholds !! operation_name))
    in *.
  unfold Py.gt. cbn [Py.number_value].
  split; intros Hd.
  - assert (Qle_bool (Py.number_value duration) (inject_Z threshold) = true)
      as ->; [|reflexivity].
    apply Qle_bool_iff. eapply Qle_trans; [exact Hd|].
    unfold Qle, inject_Z. cbn [Qnum Qden]. lia.
  - assert (Qle_bool (Py.number_value duration) (inject_Z threshold) = false)
      as ->; [|reflexivity].
    destruct (Qle_bool _ _) eqn:Hb; [|reflexivity].
    apply Qle_bool_iff in Hb. exfalso.
    apply (Qlt_not_le _ _ Hd). eapply Qle_trans; [exact Hb|].
    unfold Qle, inject_Z. cbn [Qnum Qden]. lia.
Qed.

Lemma threshold_warning_bounds_witness :
  List.filter is_warning_level
    (emitted (WorkflowMonitor.monitor_operation demo_monitor "model_download"
                (Py.NFloat (25 # 1)) true demo_world)) = [].
Proof.
  apply (proj1 (threshold_warning_bounds demo_monitor "model_download"
                  (Py.NFloat (25 # 1)) true demo_world)).
  vm_compute. discriminate.
Defined.

(** ** The monitor from construction to summary *)

Section MonitorLifecycle.

Import WorkflowMonitor.

Lemma logger_init_world (name log_dir : string) (w : World)
    (self : WorkflowLogger.t) :
  outcome (WorkflowLogger.__init__ name log_dir w) = Returned self ->
  let w1 := world (WorkflowLogger.__init__ name log_dir w) in
  log_dir ∈ directories w1
  /\ clock_reads w1 = S (S (clock_reads w))
  /\ wall_now w1 = wall_now w
  /\ emitted (WorkflowLogger.__init__ name log_dir w) = [].
Proof.
  cbv zeta. rewrite logger_init_run. cbv zeta.
  destruct (path_mkdir (files w) (directories w) log_dir) as [e|ds] eqn:Hmade;
    [discriminate|].
  apply path_mkdir_made in Hmade as ->.
  repeat (match goal with
          | |- context [bool_decide ?P] => destruct (bool_decide P)
          | |- context [lookup_parent ?a ?b ?c] =>
              destruct (lookup_parent a b c)
          end; try discriminate).
  intros _. cbn [world directories with_fs tick clock_reads wall_now emitted].
  repeat split. apply elem_of_union_l, elem_of_singleton. reflexivity.
Qed.


(** The monitor, once its logger is constructed. *)
Lemma monitor_init_run (workflow_name : string) (w : World) :
  let rl := WorkflowLogger.__init__ workflow_name "logs" w in
  __init__ workflow_name w =
  match outcome rl with
  | Returned lg =>
      {| outcome :=
           Returned
             {| workflow_name := workflow_name; logger := lg;
                s3_manager :=
                  {| S3Manager.region :=
                       default "us-east-1"
                         (environ (world rl) !! "AWS_DEFAULT_REGION");
                     S3Manager.bucket_name :=
                       "ai-devops-results-"
                         ++ default "workflow" (environ (world rl) !! "USER") |};
                start_time := wall_now (world rl) (clock_reads (world rl));
                workflow_run := Py.VNone; commit_sha := Py.VNone |};
         world := tick (world rl);
         emitted := emitted rl |}
  | Raised e =>
      {| outcome := Raised e; world := world rl; emitted := emitted rl |}
  end.
Proof.
  unfold __init__, S3Manager.__init__, datetime_now, get_world, bind, ret.
  cbv zeta.
  destruct (WorkflowLogger.__init__ workflow_name "logs" w) as [[lg|e] w1 t1];
    cbn [outcome world emitted]; [|reflexivity].
  now rewrite !app_nil_r.
Qed.

End MonitorLifecycle.

(** X9. A monitor that has just been constructed carries no run and no
    commit, its start time is the third clock reading of the construction,
    and the construction has created the [logs] directory: a health check
    made next reports the run as null and the [logs] directory as present
    and [healthy]. *)
Theorem fresh_monitor_health
    (workflow_name : string) (w : World) (monitor : WorkflowMonitor.t)
    (health : list (string * Py.value)) :
  outcome (WorkflowMonitor.__init__ workflow_name w) = Returned monitor ->
  outcome (WorkflowMonitor.health_check monitor
             (world (WorkflowMonitor.__init__ workflow_name w)))
  = Returned health ->
  WorkflowMonitor.workflow_run monitor = Py.VNone
  /\ WorkflowMonitor.commit_sha monitor = Py.VNone
  /\ WorkflowMonitor.start_time monitor = wall_now w (S (S (clock_reads w)))
  /\ Py.dict_get health "workflow_run" = Some Py.VNone
  /\ exists checks,
       Py.dict_get health "checks" = Some (Py.VDict checks)
       /\ Py.dict_get checks "logs_directory"
          = Some (Py.VDict [ ("status", Py.VStr "healthy");
                             ("exists", Py.VBool true) ]).
Proof.
  rewrite monitor_init_run. cbv zeta.
  pose proof (logger_init_world workflow_name "logs" w) as Hl.
  destruct (outcome (WorkflowLogger.__init__ workflow_name "logs" w))
    as [lg|e] eqn:Ho; [|discriminate].
  destruct (Hl lg eq_refl) as (Hdir & Hclock & Hnow & _).
  cbn [outcome world]. intros Hm. injection Hm as <-.
  cbn [WorkflowMonitor.workflow_run WorkflowMonitor.commit_sha
         WorkflowMonitor.start_time].
  rewrite Hclock, Hnow.
  intros Hh. split; [reflexivity|]. split; [reflexivity|].
  split; [reflexivity|].
  rewrite health_check_run in Hh.
  cbn [disk_usage tick] in Hh.
  assert (path_exists
            (tick (world (WorkflowLogger.__init__ workflow_name "logs" w)))
            "logs" = true) as Hexists.
  { unfold path_exists. cbn [directories tick].
    rewrite bool_decide_eq_true_2 by exact Hdir. reflexivity. }
  destruct (disk_usage _) as [e|[[total used] free]]; [discriminate|].
  destruct (total =? 0); [discriminate|].
  destruct (aws_probe _); cbv zeta in Hh; cbn [outcome] in Hh;
    try discriminate Hh; injection Hh as <-;
    rewrite Hexists; (split; [reflexivity|]); eexists; split; reflexivity.
Qed.

Lemma fresh_monitor_health_witness :
  WorkflowMonitor.workflow_run fresh_monitor = Py.VNone
  /\ WorkflowMonitor.commit_sha fresh_monitor = Py.VNone
  /\ WorkflowMonitor.start_time fresh_monitor
     = wall_now demo_world (S (S (clock_reads demo_world)))
  /\ Py.dict_get
       (snapshot "2024-03-01T12:00:06" Py.VNone "healthy" 60 true false)
       "workflow_run" = Some Py.VNone
  /\ exists checks,
       Py.dict_get
         (snapshot "2024-03-01T12:00:06" Py.VNone "healthy" 60 true false)
         "checks" = Some (Py.VDict checks)
       /\ Py.dict_get checks "logs_directory"
          = Some (Py.VDict [ ("status", Py.VStr "healthy");
                             ("exists", Py.VBool true) ]).
Proof.
  apply (fresh_monitor_health "wf" demo_world fresh_monitor).
  - vm_compute. reflexivity.
  - vm_compute. reflexivity.
Defined.








(** ** The AWS command runner *)

Section Strip.

Lemma lstrip_head (s : string) :
  Py.lstrip s = EmptyString
  \/ exists c rest, Py.lstrip s = String c rest /\ Py.is_space c = false.
Proof.
  induction s as [|c s IH]; [now left|].
  cbn [Py.lstrip]. destruct (Py.is_space c) eqn:Hc; [exact IH|].
  right. eauto.
Qed.

Lemma rstrip_idempotent (s : string) : Py.rstrip (Py.rstrip s) = Py.rstrip s.
Proof.
  induction s as [|c s IH]; [reflexivity|].
  cbn [Py.rstrip]. destruct (Py.rstrip s) as [|c' s'] eqn:Hr.
  - destruct (Py.is_space c) eqn:Hc; [reflexivity|].
    cbn [Py.rstrip]. now rewrite Hc.
  - remember (String c' s') as r eqn:Er.
    cbn [Py.rstrip]. rewrite IH. now subst r.
Qed.

Lemma rstrip_head (c : ascii) (rest : string) :
  Py.is_space c = false ->
  exists rest', Py.rstrip (String c rest) = String c rest'.
Proof.
  intros Hc. cbn [Py.rstrip]. destruct (Py.rstrip rest); [|eauto].
  rewrite Hc. eauto.
Qed.

(** Stripped text has no white space left to strip. *)
Lemma strip_idempotent (s : string) : Py.strip (Py.strip s) = Py.strip s.
Proof.
  unfold Py.strip.
  destruct (lstrip_head s) as [->|(c & rest & -> & Hc)]; [reflexivity|].
  destruct (rstrip_head c rest Hc) as [rest' Hr].
  assert (Py.lstrip (Py.rstrip (String c rest)) = Py.rstrip (String c rest))
    as ->.
  { rewrite Hr. cbn [Py.lstrip]. now rewrite Hc. }
  apply rstrip_idempotent.
Qed.

Lemma lstrip_leading (s : string) :
  exists leading, s = leading ++ Py.lstrip s /\ all_space leading = true.
Proof.
  induction s as [|c s (leading & IH & Hl)]; [now exists ""|].
  cbn [Py.lstrip]. destruct (Py.is_space c) eqn:Hc.
  - exists (String c leading). split.
    + change (String c leading ++ Py.lstrip s)
        with (String c (leading ++ Py.lstrip s)).
      now rewrite <- IH.
    + cbn [all_space]. now rewrite Hc, Hl.
  - now exists "".
Qed.

Lemma lstrip_starts (s : string) : starts_with_space (Py.lstrip s) = false.
Proof.
  destruct (lstrip_head s) as [->|(c & rest & -> & Hc)]; [reflexivity|].
  exact Hc.
Qed.

Lemma app_empty_r (s : string) : s ++ "" = s.
Proof.
  induction s as [|c s IH]; [reflexivity|].
  change (String c s ++ "") with (String c (s ++ "")). now rewrite IH.
Qed.

Lemma rstrip_trailing (s : string) :
  exists trailing, s = Py.rstrip s ++ trailing /\ all_space trailing = true.
Proof.
  induction s as [|c s (trailing & IH & Ht)]; [now exists ""|].
  cbn [Py.rstrip]. destruct (Py.rstrip s) as [|c' s'] eqn:Hr.
  - destruct (Py.is_space c) eqn:Hc.
    + exists (String c s). split; [reflexivity|].
      cbn [all_space]. rewrite Hc. rewrite IH. exact Ht.
    + exists trailing. split; [|exact Ht].
      change (String c "" ++ trailing) with (String c ("" ++ trailing)).
      now rewrite <- IH.
  - exists trailing. split; [|exact Ht].
    change (String c (String c' s') ++ trailing)
      with (String c (String c' s' ++ trailing)).
    now rewrite <- IH.
Qed.

Lemma rstrip_ends (s : string) : ends_with_space (Py.rstrip s) = false.
Proof.
  induction s as [|c s IH]; [reflexivity|].
  cbn [Py.rstrip]. destruct (Py.rstrip s) as [|c' s'] eqn:Hr.
  - destruct (Py.is_space c) eqn:Hc; [reflexivity|exact Hc].
  - exact IH.
Qed.

Lemma rstrip_starts (s : string) :
  starts_with_space s = false -> starts_with_space (Py.rstrip s) = false.
Proof.
  destruct s as [|c rest]; [reflexivity|]. cbn [starts_with_space].
  intros Hc. destruct (rstrip_head c rest Hc) as [rest' ->]. exact Hc.
Qed.

Example strip_no_break_space :
  Py.strip (String (ascii_of_N 160) ("ok" ++ String (ascii_of_N 133) " "))
  = "ok".
Proof. vm_compute. reflexivity. Qed.

(** [strip] removes the white space at the two ends and nothing else. *)
Lemma strip_trimmed (s : string) : trimmed s (Py.strip s).
Proof.
  unfold trimmed, Py.strip.
  split; [apply rstrip_starts, lstrip_starts|].
  split; [apply rstrip_ends|].
  destruct (lstrip_leading s) as (leading & Hs & Hl).
  destruct (rstrip_trailing (Py.lstrip s)) as (trailing & Hr & Ht).
  exists leading, trailing. split; [|now split].
  now rewrite <- Hr.
Qed.

End Strip.

(** X13. [run_aws_command] raises only what [subprocess.run] raises besides
    [CalledProcessError] and [FileNotFoundError]. Otherwise it returns a
    flag that is true exactly when the command completed, with the standard
    output of a completed command or the standard error of a failed one,
    cut of the white space at its two ends and of nothing else, or with the
    text [AWS CLI not installed] when the program is missing. *)
Theorem run_aws_command_contract
    (self : S3Manager.t) (command : list string) (w : World) :
  let r := S3Manager.run_aws_command self command w in
  match subprocess_run w ("aws" :: command) with
  | ProcCompleted stdout =>
      exists output, outcome r = Returned (true, output)
                     /\ trimmed stdout output
  | ProcCalledProcessError stderr =>
      exists output, outcome r = Returned (false, output)
                     /\ trimmed stderr output
  | ProcFileNotFoundError =>
      outcome r = Returned (false, "AWS CLI not installed")
  | ProcRaised e => outcome r = Raised e
  end.
Proof.
  cbv zeta. unfold S3Manager.run_aws_command, S3Manager.subprocess_run_checked,
    get_world, bind, raise, ret.
  destruct (subprocess_run w ("aws" :: command)); cbn [outcome];
    try reflexivity; eexists; (split; [reflexivity|apply strip_trimmed]).
Qed.

(** ** Buckets and uploads *)

Section Uploads.

Import S3Manager.

Variable self : S3Manager.t.

Lemma run_aws_command_run (command : list string) (w : World) :
  run_aws_command self command w =
  match aws w command with
  | ProcCompleted stdout =>
      {| outcome := Returned (true, Py.strip stdout); world := w; emitted := [] |}
  | ProcCalledProcessError stderr =>
      {| outcome := Returned (false, Py.strip stderr); world := w; emitted := [] |}
  | ProcFileNotFoundError =>
      {| outcome := Returned (false, "AWS CLI not installed"); world := w;
         emitted := [] |}
  | ProcRaised e => {| outcome := Raised e; world := w; emitted := [] |}
  end.
Proof.
  unfold run_aws_command, subprocess_run_checked, get_world, bind, raise, ret,
    aws.
  destruct (subprocess_run w ("aws" :: command)); reflexivity.
Qed.

Lemma check_aws_configured_run (w : World) :
  check_aws_configured self w =
  match aws w ["sts"; "get-caller-identity"] with
  | ProcRaised e => {| outcome := Raised e; world := w; emitted := [] |}
  | res =>
      {| outcome := Returned (proc_succeeds res); world := w; emitted := [] |}
  end.
Proof.
  unfold check_aws_configured, bind. rewrite run_aws_command_run.
  destruct (aws w _); reflexivity.
Qed.

Lemma check_bucket_exists_run (w : World) :
  check_bucket_exists self w =
  match aws w ["s3"; "ls"; "s3://" ++ bucket_name self] with
  | ProcRaised e => {| outcome := Raised e; world := w; emitted := [] |}
  | res =>
      {| outcome := Returned (proc_succeeds res); world := w; emitted := [] |}
  end.
Proof.
  unfold check_bucket_exists, bind. rewrite run_aws_command_run.
  destruct (aws w _); reflexivity.
Qed.

Lemma upload_directory_run (local_dir s3_prefix : string) (w : World) :
  upload_directory self local_dir s3_prefix w =
  if path_exists w local_dir then
    let syncing :=
      "Syncing " ++ local_dir ++ " to s3://" ++ bucket_name self ++ "/"
        ++ s3_prefix in
    match aws w ["s3"; "sync"; local_dir;
                 "s3://" ++ bucket_name self ++ "/" ++ s3_prefix] with
    | ProcCompleted stdout =>
        ({| outcome := Returned true; world := w; emitted := [] |},
         [syncing; "Sync successful: " ++ s3_prefix])
    | ProcCalledProcessError stderr =>
        ({| outcome := Returned false; world := w; emitted := [] |},
         [syncing; "Sync failed: " ++ Py.strip stderr])
    | ProcFileNotFoundError =>
        ({| outcome := Returned false; world := w; emitted := [] |},
         [syncing; "Sync failed: " ++ "AWS CLI not installed"])
    | ProcRaised e =>
        ({| outcome := Raised e; world := w; emitted := [] |}, [syncing])
    end
  else
    ({| outcome := Returned false; world := w; emitted := [] |},
     ["Local directory does not exist: " ++ local_dir]).
Proof.
  unfold upload_directory, bindP, lift, print, retP, exists_.
  cbn [ret outcome world emitted].
  destruct (path_exists w local_dir); cbn [negb]; [|reflexivity].
  cbn [ret outcome world emitted app]. rewrite run_aws_command_run.
  destruct (aws w _); reflexivity.
Qed.

Lemma upload_file_run (local_path s3_key : string) (w : World) :
  upload_file self local_path s3_key w =
  if path_exists w local_path then
    let uploading :=
      "Uploading " ++ local_path ++ " to s3://" ++ bucket_name self ++ "/"
        ++ s3_key in
    match aws w ["s3"; "cp"; local_path;
                 "s3://" ++ bucket_name self ++ "/" ++ s3_key] with
    | ProcCompleted stdout =>
        ({| outcome := Returned true; world := w; emitted := [] |},
         [uploading; "Upload successful: " ++ s3_key])
    | ProcCalledProcessError stderr =>
        ({| outcome := Returned false; world := w; emitted := [] |},
         [uploading; "Upload failed: " ++ Py.strip stderr])
    | ProcFileNotFoundError =>
        ({| outcome := Returned false; world := w; emitted := [] |},
         [uploading; "Upload failed: " ++ "AWS CLI not installed"])
    | ProcRaised e =>
        ({| outcome := Raised e; world := w; emitted := [] |}, [uploading])
    end
  else
    ({| outcome := Returned false; world := w; emitted := [] |},
     ["Local file does not exist: " ++ local_path]).
Proof.
  unfold upload_file, bindP, lift, print, retP, exists_.
  cbn [ret outcome world emitted].
  destruct (path_exists w local_path); cbn [negb]; [|reflexivity].
  cbn [ret outcome world emitted app]. rewrite run_aws_command_run.
  destruct (aws w _); reflexivity.
Qed.

End Uploads.

(** X14. Where none of the three [aws] commands it may run raises,
    [create_bucket_if_needed] returns true exactly when the credentials are
    configured and the bucket either exists or is created by [s3 mb]; it
    changes nothing in the world, and it announces [Creating bucket ...]
    exactly when the credentials are configured and the bucket is missing. *)
Theorem create_bucket_result (self : S3Manager.t) (w : World) :
  let bucket := S3Manager.bucket_name self in
  let sts := aws w ["sts"; "get-caller-identity"] in
  let ls := aws w ["s3"; "ls"; "s3://" ++ bucket] in
  let mb := aws w ["s3"; "mb"; "s3://" ++ bucket; "--region";
                   S3Manager.region self] in
  proc_raises sts = false ->
  proc_raises ls = false ->
  proc_raises mb = false ->
  let r := S3Manager.create_bucket_if_needed self w in
  fst r
  = {| outcome :=
         Returned (proc_succeeds sts && (proc_succeeds ls || proc_succeeds mb));
       world := w; emitted := [] |}
  /\ exists report,
       snd r
       = if negb (proc_succeeds sts) then ["AWS credentials not configured"]
         else if proc_succeeds ls then ["Bucket " ++ bucket ++ " already exists"]
         else ["Creating bucket " ++ bucket; report].
Proof.
  cbv zeta. intros Hsts Hls Hmb.
  unfold S3Manager.create_bucket_if_needed, bindP, lift, print, retP.
  rewrite check_aws_configured_run.
  destruct (aws w ["sts"; "get-caller-identity"]) eqn:Ests;
    try discriminate Hsts; cbn [ret outcome world emitted negb proc_succeeds
                                  andb fst snd app];
    try (split; [reflexivity|exists ""; reflexivity]).
  rewrite check_bucket_exists_run.
  destruct (aws w ["s3"; "ls"; _]) eqn:Els;
    try discriminate Hls; cbn [ret outcome world emitted negb proc_succeeds
                                 andb orb fst snd app];
    try (split; [reflexivity|exists ""; reflexivity]);
    rewrite run_aws_command_run;
    destruct (aws w ["s3"; "mb"; _; _; _]) eqn:Emb;
    try discriminate Hmb; cbn [ret outcome world emitted fst snd app];
    (split; [reflexivity|eexists; reflexivity]).
Qed.

Lemma create_bucket_result_witness :
  let r := S3Manager.create_bucket_if_needed demo_s3 cloud_world in
  fst r = {| outcome := Returned true; world := cloud_world; emitted := [] |}
  /\ exists report,
       snd r = ["Creating bucket " ++ "ai-devops-results-workflow"; report].
Proof.
  apply (create_bucket_result demo_s3 cloud_world); reflexivity.
Defined.

(** X15. An upload of a path that does not exist returns false without
    consulting [aws]: [upload_file] and [upload_directory] each print one
    line naming the path, change nothing, and return false whatever the
    command would have answered. *)
Theorem upload_of_missing_path
    (self : S3Manager.t) (local_path s3_key : string) (w : World) :
  path_exists w local_path = false ->
  S3Manager.upload_file self local_path s3_key w
  = ({| outcome := Returned false; world := w; emitted := [] |},
     ["Local file does not exist: " ++ local_path])
  /\ S3Manager.upload_directory self local_path s3_key w
     = ({| outcome := Returned false; world := w; emitted := [] |},
        ["Local directory does not exist: " ++ local_path]).
Proof.
  intros Hp. rewrite upload_file_run, upload_directory_run, Hp.
  split; reflexivity.
Qed.

Lemma upload_of_missing_path_witness :
  S3Manager.upload_file demo_s3 "nowhere" "key" cloud_world
  = ({| outcome := Returned false; world := cloud_world; emitted := [] |},
     ["Local file does not exist: " ++ "nowhere"])
  /\ S3Manager.upload_directory demo_s3 "nowhere" "key" cloud_world
     = ({| outcome := Returned false; world := cloud_world; emitted := [] |},
        ["Local directory does not exist: " ++ "nowhere"]).
Proof.
  apply (upload_of_missing_path demo_s3 "nowhere" "key" cloud_world).
  reflexivity.
Defined.

(** X16. An upload of an existing path returns true exactly when the [aws]
    command completes, for a file ([s3 cp]) as for a directory ([s3 sync]);
    a failing command makes it return false, not raise, and the world is
    left as it was. *)
Theorem upload_result
    (self : S3Manager.t) (local_path s3_key : string) (w : World) :
  let target := "s3://" ++ S3Manager.bucket_name self ++ "/" ++ s3_key in
  path_exists w local_path = true ->
  proc_raises (aws w ["s3"; "cp"; local_path; target]) = false ->
  proc_raises (aws w ["s3"; "sync"; local_path; target]) = false ->
  fst (S3Manager.upload_file self local_path s3_key w)
  = {| outcome :=
         Returned (proc_succeeds (aws w ["s3"; "cp"; local_path; target]));
       world := w; emitted := [] |}
  /\ fst (S3Manager.upload_directory self local_path s3_key w)
     = {| outcome :=
            Returned (proc_succeeds (aws w ["s3"; "sync"; local_path; target]));
          world := w; emitted := [] |}.
Proof.
  cbv zeta. intros Hp Hcp Hsync.
  rewrite upload_file_run, upload_directory_run, Hp. cbv zeta.
  destruct (aws w ["s3"; "cp"; _; _]); try discriminate Hcp;
    destruct (aws w ["s3"; "sync"; _; _]); try discriminate Hsync;
    split; reflexivity.
Qed.

Lemma upload_result_witness :
  fst (S3Manager.upload_file demo_s3 "test-results" "key" cloud_world)
  = {| outcome := Returned true; world := cloud_world; emitted := [] |}
  /\ fst (S3Manager.upload_directory demo_s3 "test-results" "key" cloud_world)
     = {| outcome := Returned true; world := cloud_world; emitted := [] |}.
Proof.
  apply (upload_result demo_s3 "test-results" "key" cloud_world); reflexivity.
Defined.

(** ** Dictionaries *)

Section Dict.

Lemma dict_get_set_eq (d : list (string * Py.value)) (k : string)
    (v : Py.value) :
  Py.dict_get (Py.dict_set d k v) k = Some v.
Proof.
  induction d as [|[k' v'] d IH]; cbn [Py.dict_set Py.dict_get].
  - now rewrite String.eqb_refl.
  - destruct (String.eqb k' k) eqn:Hk; cbn [Py.dict_get].
    + now rewrite String.eqb_refl.
    + now rewrite Hk.
Qed.

Lemma dict_get_set_ne (d : list (string * Py.value)) (k k' : string)
    (v : Py.value) :
  k' <> k -> Py.dict_get (Py.dict_set d k v) k' = Py.dict_get d k'.
Proof.
  intros Hne. induction d as [|[k0 v0] d IH]; cbn [Py.dict_set Py.dict_get].
  - destruct (String.eqb_spec k k'); [congruence|reflexivity].
  - destruct (String.eqb_spec k0 k) as [->|Hk0]; cbn [Py.dict_get].
    + destruct (String.eqb_spec k k'); [congruence|reflexivity].
    + destruct (String.eqb k0 k'); [reflexivity|exact IH].
Qed.

End Dict.

(** ** Uploading the results of a run *)

Section WorkflowResults.

Import S3Manager.

Variables (self : S3Manager.t) (result_dir workflow_run : string).

Lemma generate_workflow_key_run (w : World) :
  generate_workflow_key self workflow_run w
  = {| outcome := Returned (workflow_key workflow_run w);
       world := tick w; emitted := [] |}.
Proof. reflexivity. Qed.

End WorkflowResults.

(** X17. With a non-empty metadata dict, an existing result directory and
    an [aws s3 sync] that does not raise, [upload_workflow_results] writes
    [s3_metadata.json] into the result directory before it uploads: the
    file holds the metadata with every entry as given and the entry
    [s3_location] set to the address of the upload. The call returns that
    same address when the upload succeeds and [None] when it fails; the
    metadata file is written in both cases. *)
Theorem workflow_results_metadata
    (self : S3Manager.t) (result_dir workflow_run : string)
    (entry : string * Py.value) (entries : list (string * Py.value))
    (w : World) :
  let metadata := entry :: entries in
  let s3_url :=
    "s3://" ++ S3Manager.bucket_name self ++ "/" ++ workflow_key workflow_run w in
  let written := Py.dict_set metadata "s3_location" (Py.VStr s3_url) in
  let sync :=
    aws w ["s3"; "sync"; result_dir; s3_url] in
  result_dir ∈ directories w ->
  path_join result_dir "s3_metadata.json" ∉ directories w ->
  proc_raises sync = false ->
  let r := fst (S3Manager.upload_workflow_results self result_dir workflow_run
                  (Some metadata) w) in
  outcome r = Returned (if proc_succeeds sync then Some s3_url else None)
  /\ files (world r)
     = <[ path_join result_dir "s3_metadata.json"
          := Py.json_dumps_indent 2 (Py.VDict written) ]> (files w)
  /\ directories (world r) = directories w
  /\ Py.dict_get written "s3_location" = Some (Py.VStr s3_url)
  /\ (forall k, k <> "s3_location" ->
                Py.dict_get written k = Py.dict_get metadata k).
Proof.
  cbv zeta. intros Hdir Hfile Hsync.
  split; [|split; [|split; [|split]]];
    [| | |apply dict_get_set_eq|intros k Hk; now apply dict_get_set_ne].
  all: unfold S3Manager.upload_workflow_results, bindP, lift, retP, print,
         write_text_in, write_text, put_world, raise, ret.
  all: rewrite generate_workflow_key_run; cbn [outcome world emitted].
  all: cbn [directories files tick].
  all: rewrite (bool_decide_eq_true_2 _ Hdir), (bool_decide_eq_false_2 _ Hfile).
  all: cbn [outcome world emitted app].
  all: rewrite upload_directory_run.
  all: assert (path_exists
                 (with_fs (tick w) (directories w)
                    (<[ path_join result_dir "s3_metadata.json" :=
                          Py.json_dumps_indent 2
                            (Py.VDict
                               (Py.dict_set (entry :: entries) "s3_location"
                                  (Py.VStr
                                     ("s3://" ++ S3Manager.bucket_name self
                                        ++ "/" ++ workflow_key workflow_run w)))) ]>
                       (files w)))
                 result_dir = true) as ->
         by (unfold path_exists; cbn [directories with_fs];
             now rewrite (bool_decide_eq_true_2 _ Hdir)).
  all: cbv zeta; unfold aws in *; cbn [subprocess_run with_fs tick].
  all: destruct (subprocess_run w _); try discriminate Hsync; reflexivity.
Qed.

Lemma workflow_results_metadata_witness :
  let metadata := [("commit", Py.VStr "abc123"); ("status", Py.VStr "ok")] in
  let s3_url :=
    "s3://" ++ S3Manager.bucket_name demo_s3 ++ "/"
      ++ workflow_key "999" cloud_world in
  let written := Py.dict_set metadata "s3_location" (Py.VStr s3_url) in
  let sync := aws cloud_world ["s3"; "sync"; "test-results"; s3_url] in
  let r := fst (S3Manager.upload_workflow_results demo_s3 "test-results" "999"
                  (Some metadata) cloud_world) in
  outcome r = Returned (if proc_succeeds sync then Some s3_url else None)
  /\ files (world r)
     = <[ path_join "test-results" "s3_metadata.json"
          := Py.json_dumps_indent 2 (Py.VDict written) ]> (files cloud_world)
  /\ directories (world r) = directories cloud_world
  /\ Py.dict_get written "s3_location" = Some (Py.VStr s3_url)
  /\ (forall k, k <> "s3_location" ->
                Py.dict_get written k = Py.dict_get metadata k).
Proof.
  apply (workflow_results_metadata demo_s3 "test-results" "999"
           ("commit", Py.VStr "abc123") [("status", Py.VStr "ok")]
           cloud_world).
  - vm_compute. reflexivity.
  - intros H. vm_compute in H. discriminate H.
  - reflexivity.
Defined.



(** X19. An [S3Manager] never has an empty bucket name: a non-empty
    argument is taken as it is, and without an argument, or with the empty
    string, the name is [ai-devops-results-] followed by the value of
    [USER], or by [workflow] when [USER] is not set. Construction reads the
    environment and changes nothing. *)
Theorem s3_manager_bucket_name (bucket_name : option string) (w : World) :
  exists self,
    S3Manager.__init__ bucket_name w
    = {| outcome := Returned self; world := w; emitted := [] |}
    /\ S3Manager.bucket_name self <> ""
    /\ S3Manager.bucket_name self
       = match bucket_name with
         | None | Some "" =>
             "ai-devops-results-" ++ default "workflow" (environ w !! "USER")
         | Some given => given
         end
    /\ S3Manager.region self
       = default "us-east-1" (environ w !! "AWS_DEFAULT_REGION").
Proof.
  unfold S3Manager.__init__, get_world, bind, ret.
  destruct bucket_name as [[|c given]|]; cbn;
    eexists; (split; [reflexivity|]); cbn; repeat split; discriminate.
Qed.
